(** * netutil/route: the IPv4 routing-table dump of [main_darwin.go]

    A shallow embedding of [src/route/main_darwin.go] and the proofs of the
    properties its specification states.  The program fetches the routing
    information base, parses it with [golang.org/x/net/route], and prints one
    row per route message through a [text/tabwriter].

    Layout: the pieces of the Go libraries the program calls ([syscall]
    constants, [net.IPMask.Size], the [fmt] verbs it uses, the [route]
    message types), then the program itself ([getFlags], [dump], [main]),
    then the specification-side notions, then the theorems. *)

From Stdlib Require Import ZArith NArith Strings.Byte DecimalString HexadecimalString.
From stdpp Require Import base list strings.

Local Open Scope Z_scope.

(** ** Bytes *)

(** Go's [byte] is [uint8]; the 256-constructor [Byte.byte] excludes
    out-of-range values by typing.  Arithmetic is done on [Z]. *)
Definition byteZ (b : byte) : Z := Z.of_N (Byte.to_N b).

(** Truncation of an integer to [uint8] (wrap-around modulo 256). *)
Definition Zbyte (z : Z) : byte :=
  match Byte.of_N (Z.to_N (z mod 256)) with
  | Some b => b
  | None => Byte.x00
  end.

Definition TAB : string := String (Ascii.ascii_of_nat 9) EmptyString.
Definition NL : string := String (Ascii.ascii_of_nat 10) EmptyString.

(** ** Package [syscall] (darwin) *)

(** The route flag and address-family constants of Go's [syscall] package
    for darwin (zerrors_darwin_*.go); they are the values of XNU's
    [net/route.h] and [sys/socket.h]. *)
Module syscall.
Definition AF_INET : Z := 0x2.
Definition AF_LINK : Z := 0x12.
Definition AF_INET6 : Z := 0x1e.
Definition RTAX_MAX : nat := 8.

Definition RTF_BLACKHOLE : Z := 0x1000.
Definition RTF_BROADCAST : Z := 0x400000.
Definition RTF_CLONING : Z := 0x100.
Definition RTF_CONDEMNED : Z := 0x2000000.
Definition RTF_DELCLONE : Z := 0x80.
Definition RTF_DONE : Z := 0x40.
Definition RTF_DYNAMIC : Z := 0x10.
Definition RTF_GATEWAY : Z := 0x2.
Definition RTF_HOST : Z := 0x4.
Definition RTF_IFREF : Z := 0x4000000.
Definition RTF_IFSCOPE : Z := 0x1000000.
Definition RTF_LLINFO : Z := 0x400.
Definition RTF_LOCAL : Z := 0x200000.
Definition RTF_MODIFIED : Z := 0x20.
Definition RTF_MULTICAST : Z := 0x800000.
Definition RTF_PINNED : Z := 0x100000.
Definition RTF_PRCLONING : Z := 0x10000.
Definition RTF_PROTO1 : Z := 0x8000.
Definition RTF_PROTO2 : Z := 0x4000.
Definition RTF_PROTO3 : Z := 0x40000.
Definition RTF_REJECT : Z := 0x8.
Definition RTF_STATIC : Z := 0x800.
Definition RTF_UP : Z := 0x1.
Definition RTF_WASCLONED : Z := 0x20000.
Definition RTF_XRESOLVE : Z := 0x200.
End syscall.

(** ** Package [net]: [IPv4Mask] and [IPMask.Size] *)

Module net.
Definition IPMask := list byte.

Definition IPv4Mask (a b c d : byte) : IPMask := [a; b; c; d].

(** The inner loop of [simpleMaskLength]:
    [for v&0x80 != 0 { n++; v <<= 1 }] on a [uint8] [v]. *)
Fixpoint count_ones (fuel : nat) (n : Z) (v : byte) : Z * byte :=
  match fuel with
  | O => (n, v)
  | S fuel' =>
      if Z.land (byteZ v) 0x80 =? 0 then (n, v)
      else count_ones fuel' (n + 1) (Zbyte (Z.shiftl (byteZ v) 1))
  end.

(** [for i, v := range mask] with the running count [n]. The tail loop
    [for i++; i < len(mask); i++] checks that the remaining bytes are 0. *)
Fixpoint simpleMaskLength_from (n : Z) (mask : list byte) : Z :=
  match mask with
  | [] => n
  | v :: rest =>
      if byteZ v =? 0xff then simpleMaskLength_from (n + 8) rest
      else
        let '(n', v') := count_ones 8 n v in
        if negb (byteZ v' =? 0) then -1
        else if forallb (fun b => byteZ b =? 0) rest then n' else -1
  end.

Definition simpleMaskLength (mask : IPMask) : Z := simpleMaskLength_from 0 mask.

(** [func (m IPMask) Size() (ones, bits int)]. *)
Definition Size (m : IPMask) : Z * Z :=
  let ones := simpleMaskLength m in
  let bits := Z.of_nat (length m) * 8 in
  if ones =? -1 then (0, 0) else (ones, bits).
End net.

(** ** Package [fmt]: the verbs the program uses *)

Module fmt.
(** [%d] of an integer. *)
Definition d (n : Z) : string := DecimalString.NilZero.string_of_int (Z.to_int n).

(** [%x] of a [byte]: lowercase hexadecimal, no padding. *)
Definition x (b : byte) : string :=
  HexadecimalString.NilZero.string_of_uint (N.to_hex_uint (Byte.to_N b)).

(** [%v] of a [[]string]: the elements separated by one space, in
    square brackets. *)
Definition v_strings (l : list string) : string :=
  "[" +:+ String.concat " " l +:+ "]".
End fmt.

(** [strings.Join]. *)
Definition strings_Join (elems : list string) (sep : string) : string :=
  String.concat sep elems.

(** ** Flag tests and flag names *)

Definition isFlagGateway (t : Z) : bool :=
  Z.land t syscall.RTF_GATEWAY =? syscall.RTF_GATEWAY.

Definition isFlagHost (t : Z) : bool :=
  Z.land t syscall.RTF_HOST =? syscall.RTF_HOST.

Definition isFlagIFRef (t : Z) : bool :=
  Z.land t syscall.RTF_IFREF =? syscall.RTF_IFREF.

(** One statement [if t&c == c { ret = append(ret, name) }]. *)
Definition test_append (t c : Z) (name : string) (ret : list string) : list string :=
  if Z.land t c =? c then ret ++ [name] else ret.

Definition getFlags (t : Z) : list string :=
  let ret := [] in
  let ret := test_append t syscall.RTF_BLACKHOLE "RTF_BLACKHOLE" ret in
  let ret := test_append t syscall.RTF_BROADCAST "RTF_BROADCAST" ret in
  let ret := test_append t syscall.RTF_CLONING "RTF_CLONING" ret in
  let ret := test_append t syscall.RTF_CONDEMNED "RTF_CONDEMNED" ret in
  let ret := test_append t syscall.RTF_DELCLONE "RTF_DELCLONE" ret in
  let ret := test_append t syscall.RTF_DONE "RTF_DONE" ret in
  let ret := test_append t syscall.RTF_DYNAMIC "RTF_DYNAMIC" ret in
  let ret := test_append t syscall.RTF_GATEWAY "RTF_GATEWAY" ret in
  let ret := test_append t syscall.RTF_HOST "RTF_HOST" ret in
  let ret := test_append t syscall.RTF_IFREF "RTF_IFREF" ret in
  let ret := test_append t syscall.RTF_IFSCOPE "RTF_IFSCOPE" ret in
  let ret := test_append t syscall.RTF_LLINFO "RTF_LLINFO" ret in
  let ret := test_append t syscall.RTF_LOCAL "RTF_LOCAL" ret in
  let ret := test_append t syscall.RTF_MODIFIED "RTF_MODIFIED" ret in
  let ret := test_append t syscall.RTF_MULTICAST "RTF_MULTICAST" ret in
  let ret := test_append t syscall.RTF_PINNED "RTF_PINNED" ret in
  let ret := test_append t syscall.RTF_PRCLONING "RTF_PRCLONING" ret in
  let ret := test_append t syscall.RTF_PROTO1 "RTF_PROTO1" ret in
  let ret := test_append t syscall.RTF_PROTO2 "RTF_PROTO2" ret in
  let ret := test_append t syscall.RTF_PROTO3 "RTF_PROTO3" ret in
  let ret := test_append t syscall.RTF_REJECT "RTF_REJECT" ret in
  let ret := test_append t syscall.RTF_STATIC "RTF_STATIC" ret in
  let ret := test_append t syscall.RTF_UP "RTF_UP" ret in
  let ret := test_append t syscall.RTF_WASCLONED "RTF_WASCLONED" ret in
  let ret := test_append t syscall.RTF_XRESOLVE "RTF_XRESOLVE" ret in
  ret.

(** ** Package [golang.org/x/net/route]: the message types *)

Module route.
(** [Inet4Addr.IP] is a [[4]byte]. *)
Record IP4 : Type := mkIP4 { ip0 : byte; ip1 : byte; ip2 : byte; ip3 : byte }.

(** The implementations of the [Addr] interface. The program stores
    them behind pointers; a nil interface value is [None] in a slot. *)
Inductive Addr : Type :=
| Inet4Addr (IP : IP4)
| Inet6Addr (IP : list byte) (ZoneID : Z)
| LinkAddr (Index : Z) (Name : string) (Addr : list byte)
| DefaultAddr (af : Z) (Raw : list byte).

(** The method [Family] of each implementation. *)
Definition Family (a : Addr) : Z :=
  match a with
  | Inet4Addr _ => syscall.AF_INET
  | Inet6Addr _ _ => syscall.AF_INET6
  | LinkAddr _ _ _ => syscall.AF_LINK
  | DefaultAddr af _ => af
  end.

(** The fields of [RouteMessage] the program reads. *)
Record RouteMessage : Type := mkRouteMessage {
  Type_ : Z;
  Flags : Z;
  Index : Z;
  Addrs : list (option Addr)
}.

(** A [Message] is a [*RouteMessage] or a message of another kind. *)
Inductive Message : Type :=
| Route (m : RouteMessage)
| Other (kind : string).
End route.

Import route.

(** ** The world the program runs in *)

Definition error := string.

(** What the operating system answers: the result of
    [route.FetchRIB(AF_INET, NET_RT_DUMP, 0)], of [route.ParseRIB] on a
    buffer, and of [net.InterfaceByIndex] (the interface's name). *)
Record Env : Type := mkEnv {
  FetchRIB : list byte + error;
  ParseRIB : list byte -> list Message + error;
  InterfaceByIndex : Z -> string + error
}.

(** An argument of a [fmt] call, kept as the value passed. *)
Inductive Arg : Type :=
| AInt (n : Z)
| AStr (s : string)
| AErr (e : error)
| AAddr (a : option Addr)
| ARouteMessage (m : RouteMessage)
| AMessage (m : Message).

(** One write to a stream of the process. A format string is kept as the
    source spells it, with its arguments beside it; each call in the
    program ends its line. [Tabbed] is the text a [tabwriter.Writer] with
    the given parameters lays out when flushed. *)
Inductive Output : Type :=
| Println (args : list Arg)
| Printf (format : string) (args : list Arg)
| LogFatal (e : error)
| Tabbed (minwidth tabwidth padding : Z) (padchar : string) (flags : Z) (text : string).

(** The two streams of the process and the text buffered in the tab writer. *)
Record State : Type := mkState {
  os_Stdout : list Output;
  os_Stderr : list Output;
  writer : string
}.

Definition initial : State := mkState [] [] "".

(** How a statement ends: it falls through to the next one, executes a
    [return], panics, or ends the process through [os.Exit]. *)
Inductive Res (A : Type) : Type :=
| Normal (a : A) (s : State)
| Return (s : State)
| Panic (s : State)
| OsExit (code : Z) (s : State).

Arguments Normal {A} a s.
Arguments Return {A} s.
Arguments Panic {A} s.
Arguments OsExit {A} code s.

Definition M (A : Type) : Type := State -> Res A.

Definition ret {A} (a : A) : M A := fun s => Normal a s.

Definition bind {A B} (m : M A) (f : A -> M B) : M B :=
  fun s =>
    match m s with
    | Normal a s' => f a s'
    | Return s' => Return s'
    | Panic s' => Panic s'
    | OsExit c s' => OsExit c s'
    end.

Notation "x <- m ;; k" := (bind m (fun x => k))
  (at level 100, m at next level, right associativity).
Notation "m ;;; k" := (bind m (fun _ => k))
  (at level 100, right associativity).

(** The statement [return]. *)
Definition return_ {A} : M A := fun s => Return s.

Definition panic {A} : M A := fun s => Panic s.

(** A function body: a [return] inside it ends the call normally. *)
Definition func (body : M unit) : M unit :=
  fun s =>
    match body s with
    | Normal _ s' => Normal tt s'
    | Return s' => Normal tt s'
    | Panic s' => Panic s'
    | OsExit c s' => OsExit c s'
    end.

(** [defer cleanup] followed by the rest of the function: the deferred
    call runs when the function returns or panics, not on [os.Exit]. *)
Definition defer {A} (cleanup : M unit) (rest : M A) : M A :=
  fun s =>
    match rest s with
    | Normal a s' =>
        match cleanup s' with
        | Normal _ s'' | Return s'' => Normal a s''
        | Panic s'' => Panic s''
        | OsExit c s'' => OsExit c s''
        end
    | Return s' =>
        match cleanup s' with
        | Normal _ s'' | Return s'' => Return s''
        | Panic s'' => Panic s''
        | OsExit c s'' => OsExit c s''
        end
    | Panic s' =>
        match cleanup s' with
        | Normal _ s'' | Return s'' | Panic s'' => Panic s''
        | OsExit c s'' => OsExit c s''
        end
    | OsExit c s' => OsExit c s'
    end.

(** [for i, x := range l { body }] with [i] starting at [i0]. *)
Fixpoint range_from {A} (i0 : Z) (l : list A) (body : Z -> A -> M unit) : M unit :=
  match l with
  | [] => ret tt
  | x :: l' => body i0 x ;;; range_from (i0 + 1) l' body
  end.

Definition range {A} (l : list A) (body : Z -> A -> M unit) : M unit :=
  range_from 0 l body.

(** [fmt.Println] and [fmt.Printf] write to [os.Stdout]. *)
Definition fmt_Println (args : list Arg) : M unit :=
  fun s => Normal tt (mkState (os_Stdout s ++ [Println args]) (os_Stderr s) (writer s)).

Definition fmt_Printf (format : string) (args : list Arg) : M unit :=
  fun s => Normal tt (mkState (os_Stdout s ++ [Printf format args]) (os_Stderr s) (writer s)).

(** [log.Fatal] writes to [os.Stderr] and calls [os.Exit(1)]. *)
Definition log_Fatal {A} (err : error) : M A :=
  fun s => OsExit 1 (mkState (os_Stdout s) (os_Stderr s ++ [LogFatal err]) (writer s)).

(** [tabwriter.NewWriter(os.Stdout, 10, 2, 2, ' ', 0)], its [Write], which
    buffers the text, and its [Flush], which lays the text out on
    [os.Stdout]. *)
Definition tabwriter_NewWriter : M unit :=
  fun s => Normal tt (mkState (os_Stdout s) (os_Stderr s) "").

Definition writer_Write (bytes : string) : M unit :=
  fun s => Normal tt (mkState (os_Stdout s) (os_Stderr s) (writer s +:+ bytes)).

Definition writer_Flush : M unit :=
  fun s => Normal tt (mkState (os_Stdout s ++ [Tabbed 10 2 2 " " 0 (writer s)]) (os_Stderr s) "").

(** [l[k]]: an index out of range panics. *)
Definition index (l : list (option Addr)) (k : nat) : M (option Addr) :=
  match l !! k with
  | Some a => ret a
  | None => panic
  end.

(** [a.Family()]: the method call on a nil interface panics. *)
Definition Family_of (a : option Addr) : M Z :=
  match a with
  | Some a => ret (Family a)
  | None => panic
  end.

(** ** The program *)

(** [fmt.Sprintf("%d.%d.%d.%d", ip[0], ip[1], ip[2], ip[3])]. *)
Definition dotted (ip : IP4) : string :=
  fmt.d (byteZ (ip0 ip)) +:+ "." +:+ fmt.d (byteZ (ip1 ip)) +:+ "." +:+
  fmt.d (byteZ (ip2 ip)) +:+ "." +:+ fmt.d (byteZ (ip3 ip)).

(** [fmt.Sprintf("%v\t%v\t%v\t%v\n", destination, gateway, name, flags)]. *)
Definition row (destination gateway name : string) (flags : list string) : string :=
  destination +:+ TAB +:+ gateway +:+ TAB +:+ name +:+ TAB +:+
  fmt.v_strings flags +:+ NL.

(** The loop of [dump] that sets [len]:
    [for i, a := range msg.Addrs { if a == nil { len = i; break } }]. *)
Fixpoint len_loop (i : Z) (addrs : list (option Addr)) (len : Z) : Z :=
  match addrs with
  | [] => len
  | None :: _ => i
  | Some _ :: rest => len_loop (i + 1) rest len
  end.

(** The loop [for _, b := range link.Addr { a = append(a, Sprintf("%x", b)) }]. *)
Definition hex_loop (addr : list byte) : list string :=
  foldl (fun a b => a ++ [fmt.x b]) [] addr.

Definition dump (env : Env) (i : Z) (msg : RouteMessage) : M unit :=
  func (
    (if isFlagGateway (Flags msg) && isFlagHost (Flags msg) && isFlagIFRef (Flags msg)
     then return_ else ret tt) ;;;
    intf <- match InterfaceByIndex env (Index msg) with
            | inr err =>
                fmt_Printf "unable to find interface %d, %v\n" [AInt (Index msg); AErr err] ;;;
                return_
            | inl intf => ret intf
            end ;;
    let len := len_loop 0 (Addrs msg) 0 in
    (if len <? 2
     then fmt_Printf "address should have at least 2 entries, but got %v\n" [ARouteMessage msg] ;;;
          return_
     else ret tt) ;;;
    a0 <- index (Addrs msg) 0 ;;
    destIP <- match a0 with
              | Some (Inet4Addr ip) => ret ip
              | _ =>
                  fmt_Printf "destination address should be route.Inet4Addr, but got %v\n" [AAddr a0] ;;;
                  return_
              end ;;
    let destination := dotted destIP in
    destination <-
      (if len =? 3 then
         a2 <- index (Addrs msg) 2 ;;
         f <- Family_of a2 ;;
         if negb (f =? syscall.AF_INET) then
           fmt_Printf "3rd address should be AF_INET type mask, but got %v\n" [AAddr a2] ;;;
           return_
         else
           a <- match a2 with
                | Some (Inet4Addr ip) => ret ip
                | _ =>
                    fmt_Printf "3rd address should be route.Inet4Addr, but got %v\n" [AAddr a2] ;;;
                    return_
                end ;;
           let l := fst (net.Size (net.IPv4Mask (ip0 a) (ip1 a) (ip2 a) (ip3 a))) in
           if l =? 0 then ret "default"
           else ret (destination +:+ "/" +:+ fmt.d l)
       else ret destination) ;;
    a1 <- index (Addrs msg) 1 ;;
    f <- Family_of a1 ;;
    gateway <-
      (if f =? syscall.AF_INET then
         match a1 with
         | Some (Inet4Addr gw) => ret (dotted gw)
         | _ => fmt_Printf "Unknown gateway INET addrs %v\n" [AAddr a1] ;;; return_
         end
       else if f =? syscall.AF_LINK then
         match a1 with
         | Some (LinkAddr link_Index _ link_Addr) =>
             if len =? 3 then ret ("link#" +:+ fmt.d link_Index)
             else ret (strings_Join (hex_loop link_Addr) ":")
         | _ => fmt_Printf "Unknown gateway link addrs %v\n" [AAddr a1] ;;; return_
         end
       else
         fmt_Printf "Unknown gateway addrs %v\n" [AAddr a1] ;;; return_) ;;
    writer_Write (row destination gateway intf (getFlags (Flags msg)))
  ).

Definition banner : string := "mac's equivalant command: net -nr".

Definition header : string :=
  "Destination" +:+ TAB +:+ "Gateway" +:+ TAB +:+ "Netif" +:+ TAB +:+ "Flags" +:+ NL.

Definition main (env : Env) : M unit :=
  func (
    fmt_Println [AStr banner] ;;;
    pkt <- match FetchRIB env with
           | inr err => log_Fatal err
           | inl pkt => ret pkt
           end ;;
    msgs <- match ParseRIB env pkt with
            | inr err => log_Fatal err
            | inl msgs => ret msgs
            end ;;
    tabwriter_NewWriter ;;;
    defer writer_Flush (
      writer_Write header ;;;
      range msgs (fun i msg =>
        match msg with
        | Route m => dump env i m
        | _ => fmt_Println [AStr "received non route message: "; AMessage msg]
        end))
  ).

(** The exit status of the process and the state it leaves. A panic that
    reaches the top ends the process with status 2. *)
Definition exit_status (r : Res unit) : Z :=
  match r with
  | Normal _ _ | Return _ => 0
  | Panic _ => 2
  | OsExit c _ => c
  end.

Definition final (r : Res unit) : State :=
  match r with
  | Normal _ s | Return s | Panic s | OsExit _ s => s
  end.

Definition run (env : Env) : Res unit := main env initial.

(** ** Specification-side notions *)

(** The constants [getFlags] tests with the names it appends, in the
    order of its statements. *)
Definition flag_table : list (Z * string) :=
  [ (syscall.RTF_BLACKHOLE, "RTF_BLACKHOLE");
    (syscall.RTF_BROADCAST, "RTF_BROADCAST");
    (syscall.RTF_CLONING, "RTF_CLONING");
    (syscall.RTF_CONDEMNED, "RTF_CONDEMNED");
    (syscall.RTF_DELCLONE, "RTF_DELCLONE");
    (syscall.RTF_DONE, "RTF_DONE");
    (syscall.RTF_DYNAMIC, "RTF_DYNAMIC");
    (syscall.RTF_GATEWAY, "RTF_GATEWAY");
    (syscall.RTF_HOST, "RTF_HOST");
    (syscall.RTF_IFREF, "RTF_IFREF");
    (syscall.RTF_IFSCOPE, "RTF_IFSCOPE");
    (syscall.RTF_LLINFO, "RTF_LLINFO");
    (syscall.RTF_LOCAL, "RTF_LOCAL");
    (syscall.RTF_MODIFIED, "RTF_MODIFIED");
    (syscall.RTF_MULTICAST, "RTF_MULTICAST");
    (syscall.RTF_PINNED, "RTF_PINNED");
    (syscall.RTF_PRCLONING, "RTF_PRCLONING");
    (syscall.RTF_PROTO1, "RTF_PROTO1");
    (syscall.RTF_PROTO2, "RTF_PROTO2");
    (syscall.RTF_PROTO3, "RTF_PROTO3");
    (syscall.RTF_REJECT, "RTF_REJECT");
    (syscall.RTF_STATIC, "RTF_STATIC");
    (syscall.RTF_UP, "RTF_UP");
    (syscall.RTF_WASCLONED, "RTF_WASCLONED");
    (syscall.RTF_XRESOLVE, "RTF_XRESOLVE") ].

Definition flag_names : list string := flag_table.*2.

(** All the bits [getFlags] knows. *)
Definition flag_mask : Z := foldr (fun p m => Z.lor p.1 m) 0 flag_table.

(** The constant [c] is set in the bitmask [t]. *)
Definition flag_set (t : Z) (p : Z * string) : Prop := Z.land t p.1 = p.1.

#[global] Instance flag_set_dec t p : Decision (flag_set t p) := Z.eq_dec _ _.

(** Strictly increasing in the alphabetical order of strings. *)
Fixpoint alphabetical (l : list string) : bool :=
  match l with
  | a :: (b :: _) as l' => String.ltb a b && alphabetical l'
  | _ => true
  end.

(** Increasing in value. *)
Fixpoint ascending (l : list Z) : bool :=
  match l with
  | a :: (b :: _) as l' => (a <? b) && ascending l'
  | _ => true
  end.

(** The same constants in the order of their values, which is the order
    of their declarations in the header [net/route.h]. *)
Definition flag_table_ascending : list (Z * string) :=
  [ (syscall.RTF_UP, "RTF_UP");
    (syscall.RTF_GATEWAY, "RTF_GATEWAY");
    (syscall.RTF_HOST, "RTF_HOST");
    (syscall.RTF_REJECT, "RTF_REJECT");
    (syscall.RTF_DYNAMIC, "RTF_DYNAMIC");
    (syscall.RTF_MODIFIED, "RTF_MODIFIED");
    (syscall.RTF_DONE, "RTF_DONE");
    (syscall.RTF_DELCLONE, "RTF_DELCLONE");
    (syscall.RTF_CLONING, "RTF_CLONING");
    (syscall.RTF_XRESOLVE, "RTF_XRESOLVE");
    (syscall.RTF_LLINFO, "RTF_LLINFO");
    (syscall.RTF_STATIC, "RTF_STATIC");
    (syscall.RTF_BLACKHOLE, "RTF_BLACKHOLE");
    (syscall.RTF_PROTO2, "RTF_PROTO2");
    (syscall.RTF_PROTO1, "RTF_PROTO1");
    (syscall.RTF_PRCLONING, "RTF_PRCLONING");
    (syscall.RTF_WASCLONED, "RTF_WASCLONED");
    (syscall.RTF_PROTO3, "RTF_PROTO3");
    (syscall.RTF_PINNED, "RTF_PINNED");
    (syscall.RTF_LOCAL, "RTF_LOCAL");
    (syscall.RTF_BROADCAST, "RTF_BROADCAST");
    (syscall.RTF_MULTICAST, "RTF_MULTICAST");
    (syscall.RTF_IFSCOPE, "RTF_IFSCOPE");
    (syscall.RTF_CONDEMNED, "RTF_CONDEMNED");
    (syscall.RTF_IFREF, "RTF_IFREF") ].

(** The decoder as the specification words it: the names of the set
    bits, scanned in ascending order of the constants. *)
Definition decode_ascending (t : Z) : list string :=
  (filter (flag_set t) flag_table_ascending).*2.

(** The four octets read as one big-endian 32-bit value. *)
Definition be32 (a b c d : byte) : Z :=
  Z.lor (Z.shiftl (byteZ a) 24)
    (Z.lor (Z.shiftl (byteZ b) 16) (Z.lor (Z.shiftl (byteZ c) 8) (byteZ d))).

(** The bits of a [w]-bit value, most significant first. *)
Definition bits_msb (w : nat) (v : Z) : list bool :=
  map (fun i => Z.testbit v (Z.of_nat i)) (rev (seq 0 w)).

(** The number of leading [true]s. *)
Fixpoint leading (bs : list bool) : nat :=
  match bs with
  | true :: bs' => S (leading bs')
  | _ => O
  end.

(** Ones followed by zeros. *)
Fixpoint ones_then_zeros (bs : list bool) : bool :=
  match bs with
  | true :: bs' => ones_then_zeros bs'
  | _ => forallb negb bs
  end.

(** The count of leading one-bits of a [w]-bit value. *)
Definition leading_ones (w : nat) (v : Z) : Z := Z.of_nat (leading (bits_msb w v)).

(** A [w]-bit mask is canonical when its one-bits are all leading. *)
Definition canonical (w : nat) (v : Z) : bool := ones_then_zeros (bits_msb w v).

(** The bits of a byte string, most significant first. *)
Definition bits_of (mask : list byte) : list bool :=
  mask ≫= (fun b => bits_msb 8 (byteZ b)).

(** The number of slots preceding the first absent slot. *)
Fixpoint populated (addrs : list (option Addr)) : nat :=
  match addrs with
  | Some _ :: rest => S (populated rest)
  | _ => O
  end.

(** The message is dropped by the flag rule of [dump]. *)
Definition dropped (m : RouteMessage) : bool :=
  isFlagGateway (Flags m) && isFlagHost (Flags m) && isFlagIFRef (Flags m).

(** The hexadecimal digit of a value below 16, lowercase. *)
Definition hex_digit (n : Z) : string :=
  String.substring (Z.to_nat n) 1 "0123456789abcdef".

(** A byte in minimal lowercase hexadecimal: one digit below 16, two
    digits from 16 on, never a leading zero. *)
Definition hex_minimal (b : byte) : string :=
  if byteZ b <? 16 then hex_digit (byteZ b)
  else hex_digit (byteZ b / 16) +:+ hex_digit (byteZ b mod 16).

(** The state after one more line on [os.Stdout]. *)
Definition printed (o : Output) (s : State) : State :=
  mkState (os_Stdout s ++ [o]) (os_Stderr s) (writer s).

(** The state after one more row in the tab writer. *)
Definition written (text : string) (s : State) : State :=
  mkState (os_Stdout s) (os_Stderr s) (writer s +:+ text).

(** A gateway [dump] knows how to render. *)
Definition known_gateway (a : Addr) : bool :=
  match a with
  | Inet4Addr _ | LinkAddr _ _ _ => true
  | _ => false
  end.

(** The destination field for a three-slot message with destination [d]
    and netmask [mask]. *)
Definition destination_with_mask (d mask : IP4) : string :=
  let v := be32 (ip0 mask) (ip1 mask) (ip2 mask) (ip3 mask) in
  if canonical 32 v then
    if leading_ones 32 v =? 0 then "default"
    else dotted d +:+ "/" +:+ fmt.d (leading_ones 32 v)
  else "default".

(** The fetch of the routing table or its parse fails. *)
Definition fatal (env : Env) : Prop :=
  match FetchRIB env with
  | inr _ => True
  | inl pkt => match ParseRIB env pkt with inr _ => True | inl _ => False end
  end.

(** What the loop of [main] does for one message, run on its own from
    the initial state. *)
Definition alone (env : Env) (msg : Message) : State :=
  final (match msg with
         | Route m => dump env 0 m
         | _ => fmt_Println [AStr "received non route message: "; AMessage msg]
         end initial).

(** The lines the messages put on [os.Stdout] and the rows they put in
    the table, each message taken on its own. *)
Definition lines_of (env : Env) (msgs : list Message) : list Output :=
  flat_map (fun msg => os_Stdout (alone env msg)) msgs.

Definition rows_of (env : Env) (msgs : list Message) : string :=
  foldr (fun msg text => writer (alone env msg) +:+ text) "" msgs.

(** The per-record conditions of the error-handling design, on a message
    the flag rule keeps. *)
Definition unresolvable (env : Env) (m : RouteMessage) : Prop :=
  exists e, InterfaceByIndex env (Index m) = inr e.

Definition too_few_slots (m : RouteMessage) : Prop :=
  (populated (Addrs m) < 2)%nat.

Definition destination_not_ipv4 (m : RouteMessage) : Prop :=
  exists a0, Addrs m !! 0%nat = Some (Some a0) ∧ forall ip, a0 ≠ Inet4Addr ip.

Definition gateway_family_unknown (m : RouteMessage) : Prop :=
  exists a1, Addrs m !! 1%nat = Some (Some a1)
             ∧ Family a1 ≠ syscall.AF_INET ∧ Family a1 ≠ syscall.AF_LINK.

(** The netmask slot is malformed: the third slot is populated and does
    not hold an IPv4 address. *)
Definition netmask_malformed (m : RouteMessage) : Prop :=
  exists a2, Addrs m !! 2%nat = Some (Some a2) ∧ forall ip, a2 ≠ Inet4Addr ip.

(** The same in a message with exactly three populated leading slots,
    the only messages whose third slot [dump] reads. *)
Definition netmask_malformed_three_slots (m : RouteMessage) : Prop :=
  populated (Addrs m) = 3%nat ∧ netmask_malformed m.

(** ** Sample inputs *)

Definition ip4 (a b c d : Z) : IP4 := mkIP4 (Zbyte a) (Zbyte b) (Zbyte c) (Zbyte d).

(** An environment whose parser answers [msgs] and whose interface 4 is
    [en0]; no other interface exists. *)
Definition env_of (msgs : list Message) : Env :=
  mkEnv (inl []) (fun _ => inl msgs)
        (fun ix => if ix =? 4 then inl "en0" else inr "no such network interface").

Definition up_gateway : Z := Z.lor syscall.RTF_UP syscall.RTF_GATEWAY.

(** The default route of the end-to-end example. *)
Definition msg_default : RouteMessage :=
  mkRouteMessage 4 up_gateway 4
    [Some (Inet4Addr (ip4 0 0 0 0)); Some (Inet4Addr (ip4 10 0 0 1));
     Some (Inet4Addr (ip4 0 0 0 0)); None; None; None; None; None].

(** A route whose netmask is 255.255.255.0. *)
Definition msg_slash24 : RouteMessage :=
  mkRouteMessage 4 up_gateway 4
    [Some (Inet4Addr (ip4 192 168 1 0)); Some (Inet4Addr (ip4 10 0 0 1));
     Some (Inet4Addr (ip4 255 255 255 0)); None; None; None; None; None].

(** A route whose netmask 255.0.255.0 is not canonical. *)
Definition msg_noncanonical : RouteMessage :=
  mkRouteMessage 4 up_gateway 4
    [Some (Inet4Addr (ip4 10 0 0 0)); Some (Inet4Addr (ip4 10 0 0 1));
     Some (Inet4Addr (ip4 255 0 255 0)); None; None; None; None; None].

(** A route with four populated slots: destination, link gateway,
    netmask 255.255.255.0 and a fourth address. *)
Definition msg_four_slots : RouteMessage :=
  mkRouteMessage 4 syscall.RTF_UP 4
    [Some (Inet4Addr (ip4 10 0 0 0)); Some (LinkAddr 7 "en1" [Zbyte 0x02; Zbyte 0xab]);
     Some (Inet4Addr (ip4 255 255 255 0)); Some (Inet4Addr (ip4 0 0 0 0));
     None; None; None; None].

(** A route with four populated slots whose third slot holds a link
    address instead of a netmask. *)
Definition msg_four_slots_no_mask : RouteMessage :=
  mkRouteMessage 4 syscall.RTF_UP 4
    [Some (Inet4Addr (ip4 10 0 0 0)); Some (Inet4Addr (ip4 10 0 0 1));
     Some (LinkAddr 7 "en1" [Zbyte 0x02; Zbyte 0xab]); Some (Inet4Addr (ip4 0 0 0 0));
     None; None; None; None].

(** A route with three populated slots and a link gateway. *)
Definition msg_three_slots_link : RouteMessage :=
  mkRouteMessage 4 syscall.RTF_UP 4
    [Some (Inet4Addr (ip4 10 0 0 0)); Some (LinkAddr 7 "en1" [Zbyte 0x02; Zbyte 0xab]);
     Some (Inet4Addr (ip4 255 255 255 0)); None; None; None; None; None].

(** A route with two populated slots and a link gateway. *)
Definition msg_two_slots_link : RouteMessage :=
  mkRouteMessage 4 syscall.RTF_UP 4
    [Some (Inet4Addr (ip4 10 0 0 0)); Some (LinkAddr 7 "en1" [Zbyte 0x02; Zbyte 0xab]);
     None; None; None; None; None; None].


(** A route all of whose [RTAX_MAX] slots are populated. *)
Definition msg_all_slots : RouteMessage :=
  mkRouteMessage 4 up_gateway 4
    [Some (Inet4Addr (ip4 10 0 0 0)); Some (Inet4Addr (ip4 10 0 0 1));
     Some (Inet4Addr (ip4 255 0 0 0)); Some (Inet4Addr (ip4 0 0 0 0));
     Some (LinkAddr 4 "en0" []); Some (Inet4Addr (ip4 10 0 0 2));
     Some (Inet4Addr (ip4 0 0 0 0)); Some (Inet4Addr (ip4 10 255 255 255))].

(** A route with only its destination slot populated. *)
Definition msg_one_slot : RouteMessage :=
  mkRouteMessage 4 syscall.RTF_UP 4
    [Some (Inet4Addr (ip4 10 0 0 0)); None; None; None; None; None; None; None].

(** A route with the gateway, host and interface-reference flags. *)
Definition msg_ifref : RouteMessage :=
  mkRouteMessage 4
    (Z.lor syscall.RTF_UP
       (Z.lor syscall.RTF_GATEWAY (Z.lor syscall.RTF_HOST syscall.RTF_IFREF))) 9
    [Some (Inet4Addr (ip4 10 0 0 0)); Some (Inet4Addr (ip4 10 0 0 1));
     None; None; None; None; None; None].

(** A route on an interface that no longer exists. *)
Definition msg_no_interface : RouteMessage :=
  mkRouteMessage 4 syscall.RTF_UP 9
    [Some (Inet4Addr (ip4 10 0 0 0)); Some (Inet4Addr (ip4 10 0 0 1));
     None; None; None; None; None; None].

(** An environment whose fetch fails. *)
Definition env_no_fetch : Env :=
  mkEnv (inr "route: operation not permitted") (fun _ => inl [])
        (fun _ => inr "no such network interface").

(** A table with a one-slot route, a message of another kind and the
    default route. *)
Definition env_mixed : Env :=
  env_of [Route msg_one_slot; Other "InterfaceMessage"; Route msg_default].

(** ** The rest of the file: [getTypes] and [dumpAll] *)

(** The message-type constants of Go's [syscall] package for darwin
    (zerrors_darwin_*.go), the values of XNU's [net/route.h]. They are
    codes, not single bits. *)
Module syscall_RTM.
Definition RTM_ADD : Z := 0x1.
Definition RTM_CHANGE : Z := 0x3.
Definition RTM_DELADDR : Z := 0xd.
Definition RTM_DELETE : Z := 0x2.
Definition RTM_DELMADDR : Z := 0x10.
Definition RTM_GET : Z := 0x4.
Definition RTM_GET2 : Z := 0x14.
Definition RTM_IFINFO : Z := 0xe.
Definition RTM_IFINFO2 : Z := 0x12.
Definition RTM_LOCK : Z := 0x8.
Definition RTM_LOSING : Z := 0x5.
Definition RTM_MISS : Z := 0x7.
Definition RTM_NEWADDR : Z := 0xc.
Definition RTM_NEWMADDR : Z := 0xf.
Definition RTM_NEWMADDR2 : Z := 0x13.
Definition RTM_OLDADD : Z := 0x9.
Definition RTM_OLDDEL : Z := 0xa.
Definition RTM_REDIRECT : Z := 0x6.
Definition RTM_RESOLVE : Z := 0xb.
Definition RTM_RTTUNIT : Z := 0xf4240.
Definition RTM_VERSION : Z := 0x5.
End syscall_RTM.

(** [getTypes]: the same statement 21 times. The third one tests
    [RTM_DELADDR] and appends "RTM_ADD", as the source does. *)
Definition getTypes (t : Z) : list string :=
  let ret := [] in
  let ret := test_append t syscall_RTM.RTM_ADD "RTM_ADD" ret in
  let ret := test_append t syscall_RTM.RTM_CHANGE "RTM_CHANGE" ret in
  let ret := test_append t syscall_RTM.RTM_DELADDR "RTM_ADD" ret in
  let ret := test_append t syscall_RTM.RTM_DELETE "RTM_DELETE" ret in
  let ret := test_append t syscall_RTM.RTM_DELMADDR "RTM_DELMADDR" ret in
  let ret := test_append t syscall_RTM.RTM_GET "RTM_GET" ret in
  let ret := test_append t syscall_RTM.RTM_GET2 "RTM_GET2" ret in
  let ret := test_append t syscall_RTM.RTM_IFINFO "RTM_IFINFO" ret in
  let ret := test_append t syscall_RTM.RTM_IFINFO2 "RTM_IFINFO2" ret in
  let ret := test_append t syscall_RTM.RTM_LOCK "RTM_LOCK" ret in
  let ret := test_append t syscall_RTM.RTM_LOSING "RTM_LOSING" ret in
  let ret := test_append t syscall_RTM.RTM_MISS "RTM_MISS" ret in
  let ret := test_append t syscall_RTM.RTM_NEWADDR "RTM_NEWADDR" ret in
  let ret := test_append t syscall_RTM.RTM_NEWMADDR "RTM_NEWMADDR" ret in
  let ret := test_append t syscall_RTM.RTM_NEWMADDR2 "RTM_NEWMADDR2" ret in
  let ret := test_append t syscall_RTM.RTM_OLDADD "RTM_OLDADD" ret in
  let ret := test_append t syscall_RTM.RTM_OLDDEL "RTM_OLDDEL" ret in
  let ret := test_append t syscall_RTM.RTM_REDIRECT "RTM_REDIRECT" ret in
  let ret := test_append t syscall_RTM.RTM_RESOLVE "RTM_RESOLVE" ret in
  let ret := test_append t syscall_RTM.RTM_RTTUNIT "RTM_RTTUNIT" ret in
  let ret := test_append t syscall_RTM.RTM_VERSION "RTM_VERSION" ret in
  ret.

(** [%v] of a [[4]byte] or a [[]byte]: the bytes in decimal, separated
    by one space, in square brackets. *)
Definition fmt_v_bytes (l : list byte) : string :=
  "[" +:+ String.concat " " (map (fun b => fmt.d (byteZ b)) l) +:+ "]".

(** [dumpAll]. The slices and the array among the arguments of its
    [Printf] calls are kept as their [%v] text. *)
Definition dumpAll (i : Z) (msg : RouteMessage) : M unit :=
  func (
    fmt_Printf "---route msg %d: Type: %d%v, Flag: %d%v, Index: %d\n"
      [AInt i; AInt (Type_ msg); AStr (fmt.v_strings (getTypes (Type_ msg)));
       AInt (Flags msg); AStr (fmt.v_strings (getFlags (Flags msg))); AInt (Index msg)] ;;;
    range (Addrs msg) (fun j a =>
      match a with
      | None => ret tt
      | Some a' =>
          if Family a' =? syscall.AF_INET then
            match a' with
            | Inet4Addr na_IP =>
                fmt_Printf "inet addrs %d: %v\n"
                  [AInt j; AStr (fmt_v_bytes [ip0 na_IP; ip1 na_IP; ip2 na_IP; ip3 na_IP])]
            | _ =>
                fmt_Printf "Unknown INET addrs %d: %d, %v\n"
                  [AInt j; AInt (Family a'); AAddr a]
            end
          else if Family a' =? syscall.AF_LINK then
            match a' with
            | LinkAddr na_Index na_Name na_Addr =>
                fmt_Printf "link addrs %d: name: %s, index: %d, addr: %v\n"
                  [AInt j; AStr na_Name; AInt na_Index; AStr (fmt_v_bytes na_Addr)]
            | _ =>
                fmt_Printf "Unknown link addrs %d: %d, %v\n"
                  [AInt j; AInt (Family a'); AAddr a]
            end
          else
            fmt_Printf "Unknown addrs %d: %d, %v\n"
              [AInt j; AInt (Family a'); AAddr a]
      end)
  ).

(** The constants [getTypes] tests with the names it appends, in the
    order of its statements. *)
Definition type_table : list (Z * string) :=
  [ (syscall_RTM.RTM_ADD, "RTM_ADD");
    (syscall_RTM.RTM_CHANGE, "RTM_CHANGE");
    (syscall_RTM.RTM_DELADDR, "RTM_ADD");
    (syscall_RTM.RTM_DELETE, "RTM_DELETE");
    (syscall_RTM.RTM_DELMADDR, "RTM_DELMADDR");
    (syscall_RTM.RTM_GET, "RTM_GET");
    (syscall_RTM.RTM_GET2, "RTM_GET2");
    (syscall_RTM.RTM_IFINFO, "RTM_IFINFO");
    (syscall_RTM.RTM_IFINFO2, "RTM_IFINFO2");
    (syscall_RTM.RTM_LOCK, "RTM_LOCK");
    (syscall_RTM.RTM_LOSING, "RTM_LOSING");
    (syscall_RTM.RTM_MISS, "RTM_MISS");
    (syscall_RTM.RTM_NEWADDR, "RTM_NEWADDR");
    (syscall_RTM.RTM_NEWMADDR, "RTM_NEWMADDR");
    (syscall_RTM.RTM_NEWMADDR2, "RTM_NEWMADDR2");
    (syscall_RTM.RTM_OLDADD, "RTM_OLDADD");
    (syscall_RTM.RTM_OLDDEL, "RTM_OLDDEL");
    (syscall_RTM.RTM_REDIRECT, "RTM_REDIRECT");
    (syscall_RTM.RTM_RESOLVE, "RTM_RESOLVE");
    (syscall_RTM.RTM_RTTUNIT, "RTM_RTTUNIT");
    (syscall_RTM.RTM_VERSION, "RTM_VERSION") ].

Definition type_names : list string := type_table.*2.

(** How often a name occurs in a list. *)
Definition occurrences (name : string) (l : list string) : nat :=
  length (filter (fun n => n = name) l).

(** The number of slots that hold an address, wherever they are. *)
Definition present (addrs : list (option Addr)) : nat :=
  length (filter is_Some addrs).

(** No character of the string is [c]. *)
Fixpoint free_of (c : Ascii.ascii) (a : string) : bool :=
  match a with
  | EmptyString => true
  | String ch a' => negb (Ascii.eqb ch c) && free_of c a'
  end.

(** A route with a link address after an absent slot. *)
Definition msg_sparse : RouteMessage :=
  mkRouteMessage syscall_RTM.RTM_GET up_gateway 4
    [Some (Inet4Addr (ip4 10 0 0 0)); Some (Inet4Addr (ip4 10 0 0 1));
     Some (Inet4Addr (ip4 255 0 0 0)); None;
     Some (LinkAddr 4 "en0" [Zbyte 0x02; Zbyte 0xab]); None; None; None].

(** A route with two populated slots and an IPv4 gateway. *)
Definition msg_two_slots_inet : RouteMessage :=
  mkRouteMessage syscall_RTM.RTM_GET up_gateway 4
    [Some (Inet4Addr (ip4 10 0 0 0)); Some (Inet4Addr (ip4 192 168 1 1));
     None; None; None; None; None; None].

(** A line written by [fmt.Println] or [fmt.Printf]. *)
Definition is_line (o : Output) : Prop :=
  match o with
  | Println _ | Printf _ _ => True
  | _ => False
  end.

(** Reading back the decimal text of a byte and the hexadecimal text of
    a byte. *)
Definition read_d (a : string) : byte :=
  match DecimalString.NilZero.int_of_string a with
  | Some n => Zbyte (Z.of_int n)
  | None => Byte.x00
  end.

Definition read_x (a : string) : byte :=
  match HexadecimalString.NilZero.uint_of_string a with
  | Some n => Zbyte (Z.of_N (N.of_hex_uint n))
  | None => Byte.x00
  end.

(** The separators of the dotted quad and of the hardware address. *)
Definition DOT : Ascii.ascii := Ascii.ascii_of_nat 46.
Definition COLON : Ascii.ascii := Ascii.ascii_of_nat 58.

(** * Properties *)

(** ** The flag-name decoder *)

Lemma test_append_app t c name ret :
  test_append t c name ret = ret ++ (if decide (flag_set t (c, name)) then [name] else []).
Proof.
  unfold test_append, flag_set; simpl.
  destruct (Z.eqb_spec (Z.land t c) c); destruct (decide _); try done.
  by rewrite app_nil_r.
Qed.

Lemma foldl_test_append t (tbl : list (Z * string)) ret :
  foldl (fun ret p => test_append t p.1 p.2 ret) ret tbl
  = ret ++ (filter (flag_set t) tbl).*2.
Proof.
  revert ret; induction tbl as [|[c name] tbl IH]; intros ret; simpl.
  - by rewrite app_nil_r.
  - rewrite IH, test_append_app, filter_cons.
    destruct (decide _); simpl; by rewrite <- ?app_assoc, ?app_nil_r.
Qed.

(** [getFlags] is the scan of [flag_table]. *)
Lemma getFlags_table t : getFlags t = (filter (flag_set t) flag_table).*2.
Proof.
  change (getFlags t) with (foldl (fun ret p => test_append t p.1 p.2 ret) [] flag_table).
  by rewrite foldl_test_append.
Qed.

Lemma flag_names_NoDup : NoDup flag_names.
Proof. unfold flag_names. apply (bool_decide_unpack _). by vm_compute. Qed.

Lemma flag_table_single_bit c name :
  (c, name) ∈ flag_table -> c = 2 ^ Z.log2 c ∧ 0 <= Z.log2 c < 27.
Proof.
  intros Hin. unfold flag_table in Hin.
  repeat (apply elem_of_cons in Hin as [Heq|Hin];
          [injection Heq as -> ->; vm_compute; intuition congruence|]).
  by apply elem_of_nil in Hin.
Qed.

Lemma flag_table_in_mask c name :
  (c, name) ∈ flag_table -> Z.land flag_mask c = c.
Proof.
  intros Hin. unfold flag_table in Hin.
  repeat (apply elem_of_cons in Hin as [Heq|Hin];
          [injection Heq as -> ->; by vm_compute|]).
  by apply elem_of_nil in Hin.
Qed.

Lemma snd_unique {A B} (l : list (A * B)) a a' b :
  NoDup l.*2 -> (a, b) ∈ l -> (a', b) ∈ l -> a = a'.
Proof.
  induction l as [|[x y] l IH]; simpl; intros Hnd H1 H2.
  - by apply elem_of_nil in H1.
  - apply NoDup_cons in Hnd as [Hy Hnd].
    apply elem_of_cons in H1 as [H1|H1], H2 as [H2|H2].
    + congruence.
    + injection H1 as -> ->. exfalso. apply Hy.
      apply list_elem_of_fmap. by exists (a', y).
    + injection H2 as -> ->. exfalso. apply Hy.
      apply list_elem_of_fmap. by exists (a, y).
    + by apply IH.
Qed.

Lemma getFlags_elem t c name :
  (c, name) ∈ flag_table -> name ∈ getFlags t <-> Z.land t c = c.
Proof.
  intros Hin. rewrite getFlags_table, list_elem_of_fmap. split.
  - intros [[c' name'] [Hname [Hset Hin']%list_elem_of_filter]].
    simpl in Hname; subst name'.
    by rewrite (snd_unique flag_table c c' name flag_names_NoDup Hin Hin').
  - intros Hset. exists (c, name). split; [done|].
    by apply list_elem_of_filter.
Qed.

Lemma filter_flag_set_ext t u (tbl : list (Z * string)) :
  (forall p, p ∈ tbl -> flag_set t p <-> flag_set u p) ->
  filter (flag_set t) tbl = filter (flag_set u) tbl.
Proof.
  induction tbl as [|p tbl IH]; intros Hext; [done|].
  rewrite !filter_cons, IH by (intros; apply Hext; by right).
  destruct (decide (flag_set t p)) as [Ht|Ht], (decide (flag_set u p)) as [Hu|Hu];
    try done; exfalso; apply (Hext p) in Ht || apply (Hext p) in Hu;
    try done; by left.
Qed.

(** Bits outside the table do not change the result. *)
Lemma getFlags_unknown_bits t u :
  Z.land u flag_mask = 0 -> getFlags (Z.lor t u) = getFlags t.
Proof.
  intros Hu. rewrite !getFlags_table. f_equal.
  apply filter_flag_set_ext. intros [c name] Hin. unfold flag_set; simpl.
  assert (Z.land u c = 0) as Huc.
  { rewrite <- (flag_table_in_mask c name Hin), Z.land_assoc, Hu. apply Z.land_0_l. }
  by rewrite Z.land_lor_distr_l, Huc, Z.lor_0_r.
Qed.

Lemma land_pow2_testbit t k :
  0 <= k -> Z.land t (2 ^ k) = 2 ^ k <-> Z.testbit t k = true.
Proof.
  intros Hk. split.
  - intros Heq. apply (f_equal (fun z => Z.testbit z k)) in Heq.
    rewrite Z.land_spec, Z.pow2_bits_true, andb_true_r in Heq; done.
  - intros Hbit. apply Z.bits_inj'. intros n _.
    rewrite Z.land_spec, Z.pow2_bits_eqb by done.
    destruct (Z.eqb_spec k n) as [<-|]; [by rewrite Hbit|apply andb_false_r].
Qed.

Lemma getFlags_elem_testbit t c name :
  (c, name) ∈ flag_table -> name ∈ getFlags t <-> Z.testbit t (Z.log2 c) = true.
Proof.
  intros Hin. destruct (flag_table_single_bit c name Hin) as [Hc [Hk _]].
  rewrite (getFlags_elem t c name Hin).
  rewrite Hc at 1 2. by apply land_pow2_testbit.
Qed.

Lemma flag_table_ascending_perm : flag_table_ascending ≡ₚ flag_table.
Proof.
  apply NoDup_Permutation.
  - apply (bool_decide_unpack _). by vm_compute.
  - apply (bool_decide_unpack _). by vm_compute.
  - intros p. split; intros Hin.
    + unfold flag_table_ascending in Hin.
      repeat (apply elem_of_cons in Hin as [->|Hin];
              [apply (bool_decide_unpack _); by vm_compute|]).
      by apply elem_of_nil in Hin.
    + unfold flag_table in Hin.
      repeat (apply elem_of_cons in Hin as [->|Hin];
              [apply (bool_decide_unpack _); by vm_compute|]).
      by apply elem_of_nil in Hin.
Qed.

Lemma flag_table_ascending_sorted : ascending flag_table_ascending.*1 = true.
Proof. reflexivity. Qed.

(** C6, as the code has it. For every bitmask [t], [getFlags t] is the
    list of the names of the constants of [flag_table] set in [t], in the
    order of the table, which is the alphabetical order of the names and
    not the order of the values; every constant of the table is a single
    bit, a name is in the result exactly when its bit is set, and bits
    outside the table change nothing. *)
Theorem getFlags_scans_alphabetically (t : Z) :
  getFlags t = (filter (flag_set t) flag_table).*2
  ∧ alphabetical flag_names = true
  ∧ ascending flag_table.*1 = false
  ∧ (forall c name, (c, name) ∈ flag_table ->
       c = 2 ^ Z.log2 c ∧ (name ∈ getFlags t <-> Z.testbit t (Z.log2 c) = true))
  ∧ (forall u, Z.land u flag_mask = 0 -> getFlags (Z.lor t u) = getFlags t).
Proof.
  split; [apply getFlags_table|].
  split; [reflexivity|].
  split; [reflexivity|].
  split.
  - intros c name Hin. split.
    + apply (flag_table_single_bit c name Hin).
    + by apply getFlags_elem_testbit.
  - intros u. apply getFlags_unknown_bits.
Qed.

Lemma getFlags_scans_alphabetically_witness :
  (syscall.RTF_UP = 2 ^ Z.log2 syscall.RTF_UP
   ∧ ("RTF_UP" ∈ getFlags 3 <-> Z.testbit 3 (Z.log2 syscall.RTF_UP) = true))
  ∧ getFlags (Z.lor 3 0x80000) = getFlags 3.
Proof.
  destruct (getFlags_scans_alphabetically 3) as (_ & _ & _ & Hbit & Hunk).
  split.
  - apply (Hbit syscall.RTF_UP "RTF_UP").
    apply (bool_decide_unpack _). by vm_compute.
  - apply (Hunk 0x80000). reflexivity.
Defined.

(** C6 as stated fails: with [RTF_UP] and [RTF_GATEWAY] set, the code
    emits [RTF_GATEWAY] before [RTF_UP], although [RTF_UP] has the lower
    value; a scan in ascending order gives the other order. *)
Lemma getFlags_not_ascending :
  syscall.RTF_UP < syscall.RTF_GATEWAY
  ∧ getFlags (Z.lor syscall.RTF_UP syscall.RTF_GATEWAY) = ["RTF_GATEWAY"; "RTF_UP"]
  ∧ decode_ascending (Z.lor syscall.RTF_UP syscall.RTF_GATEWAY) = ["RTF_UP"; "RTF_GATEWAY"]
  ∧ getFlags (Z.lor syscall.RTF_UP syscall.RTF_GATEWAY)
    ≠ decode_ascending (Z.lor syscall.RTF_UP syscall.RTF_GATEWAY).
Proof.
  split; [reflexivity|].
  split; [reflexivity|].
  split; [reflexivity|].
  intros Heq. vm_compute in Heq. discriminate Heq.
Qed.

(** C9. For every bitmask [t], [getFlags t] has no name twice, contains
    the name of a table entry exactly when that entry's single-bit
    constant is set in [t], and is a subsequence of the fixed list
    [flag_names] of 25 names. *)
Theorem getFlags_subsequence (t : Z) :
  NoDup (getFlags t)
  ∧ (forall c name, (c, name) ∈ flag_table ->
       c = 2 ^ Z.log2 c ∧ (name ∈ getFlags t <-> Z.land t c = c))
  ∧ getFlags t `sublist_of` flag_names
  ∧ length flag_names = 25%nat.
Proof.
  assert (getFlags t `sublist_of` flag_names) as Hsub.
  { rewrite getFlags_table. unfold flag_names.
    apply fmap_sublist, sublist_filter. }
  split; [exact (sublist_NoDup _ _ flag_names_NoDup Hsub)|].
  split.
  - intros c name Hin. split.
    + apply (flag_table_single_bit c name Hin).
    + by apply getFlags_elem.
  - split; [exact Hsub|reflexivity].
Qed.

Lemma getFlags_subsequence_witness :
  syscall.RTF_HOST = 2 ^ Z.log2 syscall.RTF_HOST
  ∧ ("RTF_HOST" ∈ getFlags 5 <-> Z.land 5 syscall.RTF_HOST = syscall.RTF_HOST).
Proof.
  apply (proj1 (proj2 (getFlags_subsequence 5)) syscall.RTF_HOST "RTF_HOST").
  apply (bool_decide_unpack _). by vm_compute.
Defined.

(** ** [net.IPMask.Size] *)

Lemma byteZ_range b : 0 <= byteZ b < 256.
Proof. destruct b; vm_compute; split; congruence. Qed.

Lemma byteZ_testbit_high b i : 8 <= i -> Z.testbit (byteZ b) i = false.
Proof.
  intros Hi. pose proof (byteZ_range b) as Hb.
  destruct (Z.eq_dec (byteZ b) 0) as [->|Hnz]; [apply Z.bits_0|].
  apply Z.bits_above_log2; [lia|].
  apply Z.lt_le_trans with 8; [|done].
  apply Z.log2_lt_pow2; [lia|]. change (2 ^ 8) with 256. lia.
Qed.

Lemma be32_testbit a b c d i :
  0 <= i ->
  Z.testbit (be32 a b c d) i =
    if i <? 8 then Z.testbit (byteZ d) i
    else if i <? 16 then Z.testbit (byteZ c) (i - 8)
    else if i <? 24 then Z.testbit (byteZ b) (i - 16)
    else Z.testbit (byteZ a) (i - 24).
Proof.
  intros Hi. unfold be32.
  rewrite !Z.lor_spec, !Z.shiftl_spec by done.
  destruct (Z.ltb_spec i 8).
  { rewrite !(Z.testbit_neg_r _ (i - _)) by lia. done. }
  destruct (Z.ltb_spec i 16).
  { rewrite !(Z.testbit_neg_r _ (i - 24)), !(Z.testbit_neg_r _ (i - 16)) by lia.
    rewrite (byteZ_testbit_high d) by done. simpl. apply orb_false_r. }
  destruct (Z.ltb_spec i 24).
  { rewrite !(Z.testbit_neg_r _ (i - 24)) by lia.
    rewrite (byteZ_testbit_high d), (byteZ_testbit_high c) by lia.
    simpl. apply orb_false_r. }
  rewrite (byteZ_testbit_high d), (byteZ_testbit_high c), (byteZ_testbit_high b) by lia.
  by rewrite !orb_false_r.
Qed.

(** The bits of the big-endian value are the bits of the octets in order. *)
Lemma bits_be32 a b c d :
  bits_msb 32 (be32 a b c d) = bits_of [a; b; c; d].
Proof.
  unfold bits_of, bits_msb. cbn [mbind list_bind app rev seq map].
  repeat (f_equal; [rewrite be32_testbit by lia; reflexivity|]).
  f_equal. rewrite be32_testbit by lia. reflexivity.
Qed.

Lemma leading_app l1 l2 :
  leading (l1 ++ l2) =
    if forallb id l1 then (length l1 + leading l2)%nat else leading l1.
Proof.
  induction l1 as [|[] l1 IH]; simpl; [done| |done].
  rewrite IH. by destruct (forallb id l1).
Qed.

Lemma ones_then_zeros_app l1 l2 :
  ones_then_zeros (l1 ++ l2) =
    if forallb id l1 then ones_then_zeros l2
    else ones_then_zeros l1 && forallb negb l2.
Proof.
  induction l1 as [|[] l1 IH]; simpl; [done|done|].
  by rewrite forallb_app.
Qed.

Lemma count_ones_shift fuel n v :
  net.count_ones fuel n v =
    (n + (net.count_ones fuel 0 v).1, (net.count_ones fuel 0 v).2).
Proof.
  revert n v. induction fuel as [|fuel IH]; intros n v; simpl.
  - f_equal. lia.
  - destruct (Z.land (byteZ v) 128 =? 0); simpl; [f_equal; lia|].
    rewrite (IH (n + 1)), (IH 1). simpl. f_equal. lia.
Qed.

(** Eight iterations are enough: the inner loop has left by then. *)
Lemma count_ones_exits v :
  Z.land (byteZ (net.count_ones 8 0 v).2) 0x80 = 0.
Proof. destruct v; reflexivity. Qed.

Lemma count_ones_bits v :
  (net.count_ones 8 0 v).1 = Z.of_nat (leading (bits_msb 8 (byteZ v)))
  ∧ (byteZ (net.count_ones 8 0 v).2 =? 0) = ones_then_zeros (bits_msb 8 (byteZ v)).
Proof. destruct v; split; reflexivity. Qed.

Lemma byte_all_ones v :
  (byteZ v =? 0xff) = forallb id (bits_msb 8 (byteZ v)).
Proof. destruct v; reflexivity. Qed.

Lemma byte_all_zeros v :
  (byteZ v =? 0) = forallb negb (bits_msb 8 (byteZ v)).
Proof. destruct v; reflexivity. Qed.

Lemma bits_msb_length w v : length (bits_msb w v) = w.
Proof. unfold bits_msb. by rewrite length_map, length_rev, length_seq. Qed.

Lemma rest_all_zeros (rest : list byte) :
  forallb (fun b => byteZ b =? 0) rest = forallb negb (bits_of rest).
Proof.
  induction rest as [|b rest IH]; [done|].
  unfold bits_of in *. cbn [forallb mbind list_bind].
  by rewrite forallb_app, IH, byte_all_zeros.
Qed.

(** [simpleMaskLength] counts the leading one-bits of a canonical mask
    and answers -1 for any other mask. *)
Lemma simpleMaskLength_from_bits n (mask : list byte) :
  net.simpleMaskLength_from n mask =
    if ones_then_zeros (bits_of mask)
    then n + Z.of_nat (leading (bits_of mask))
    else -1.
Proof.
  revert n. induction mask as [|v rest IH]; intros n.
  - simpl. lia.
  - change (bits_of (v :: rest)) with (bits_msb 8 (byteZ v) ++ bits_of rest).
    rewrite leading_app, ones_then_zeros_app, <- byte_all_ones, bits_msb_length.
    cbn [net.simpleMaskLength_from].
    destruct (Z.eqb_spec (byteZ v) 255) as [Hff|Hff].
    + rewrite IH. destruct (ones_then_zeros (bits_of rest)); lia.
    + rewrite count_ones_shift.
      destruct (count_ones_bits v) as [-> ->].
      rewrite rest_all_zeros.
      destruct (ones_then_zeros (bits_msb 8 (byteZ v))); simpl; [|done].
      by destruct (forallb negb (bits_of rest)).
Qed.

(** [Size] of an IPv4 mask: the count of leading one-bits of the
    big-endian value when the mask is canonical, and 0 otherwise. *)
Lemma Size_IPv4Mask a b c d :
  (net.Size (net.IPv4Mask a b c d)).1 =
    if canonical 32 (be32 a b c d) then leading_ones 32 (be32 a b c d) else 0.
Proof.
  unfold net.Size, net.simpleMaskLength, net.IPv4Mask, canonical, leading_ones.
  rewrite simpleMaskLength_from_bits, bits_be32.
  destruct (ones_then_zeros (bits_of [a; b; c; d])); [|done].
  destruct (Z.eqb_spec (0 + Z.of_nat (leading (bits_of [a; b; c; d]))) (-1)); simpl; lia.
Qed.

(** ** Strings and formatting *)

Lemma append_nil_r (a : string) : a +:+ "" = a.
Proof.
  induction a as [|ch a IH]; [done|].
  change (String ch a +:+ "") with (String ch (a +:+ "")). by f_equal.
Qed.

Lemma append_assoc (a b c : string) : (a +:+ b) +:+ c = a +:+ (b +:+ c).
Proof.
  induction a as [|ch a IH]; [done|].
  change ((String ch a +:+ b) +:+ c) with (String ch ((a +:+ b) +:+ c)).
  change (String ch a +:+ (b +:+ c)) with (String ch (a +:+ (b +:+ c))).
  by f_equal.
Qed.

Lemma fmt_x_minimal b : fmt.x b = hex_minimal b.
Proof. destruct b; reflexivity. Qed.

Lemma foldl_snoc_map {A B} (f : A -> B) (l : list A) (acc : list B) :
  foldl (fun a b => a ++ [f b]) acc l = acc ++ map f l.
Proof.
  revert acc. induction l as [|x l IH]; intros acc; simpl.
  - by rewrite app_nil_r.
  - by rewrite IH, <- app_assoc.
Qed.

Lemma hex_loop_map addr : hex_loop addr = map fmt.x addr.
Proof. unfold hex_loop. by rewrite foldl_snoc_map. Qed.

(** ** The count of populated slots *)

Lemma len_loop_range addrs i len :
  len_loop i addrs len = len ∨ i <= len_loop i addrs len.
Proof.
  revert i. induction addrs as [|[a|] addrs IH]; intros i; simpl.
  - by left.
  - destruct (IH (i + 1)) as [->|Hle]; [by left|right; lia].
  - right; lia.
Qed.

(** When a slot is absent, the loop finds the number of populated slots. *)
Lemma len_loop_populated addrs i len :
  None ∈ addrs -> len_loop i addrs len = i + Z.of_nat (populated addrs).
Proof.
  revert i. induction addrs as [|[a|] addrs IH]; intros i Hin; simpl.
  - by apply elem_of_nil in Hin.
  - apply elem_of_cons in Hin as [Hin|Hin]; [done|].
    rewrite IH by done. lia.
  - lia.
Qed.

(** When no slot is absent, the loop leaves [len] as it was. *)
Lemma len_loop_full addrs i len :
  None ∉ addrs -> len_loop i addrs len = len.
Proof.
  revert i. induction addrs as [|[a|] addrs IH]; intros i Hin; simpl.
  - done.
  - apply IH. intros Hin'. apply Hin. by right.
  - exfalso. apply Hin. by left.
Qed.

(** ** [dump] *)

Arguments row : simpl never.
Arguments dotted : simpl never.
Arguments getFlags : simpl never.
Arguments fmt.d : simpl never.
Arguments fmt.x : simpl never.
Arguments net.Size : simpl never.

Ltac dump_step :=
  unfold dump, func, bind, ret, return_, index, Family_of,
    fmt_Printf, writer_Write, written, printed; simpl.

Lemma dump_two_slots_link env i m s d ix nm hw name rest :
  dropped m = false ->
  InterfaceByIndex env (Index m) = inl name ->
  Addrs m = Some (Inet4Addr d) :: Some (LinkAddr ix nm hw) :: None :: rest ->
  dump env i m s =
    Normal tt (written (row (dotted d) (strings_Join (map fmt.x hw) ":") name
                          (getFlags (Flags m))) s).
Proof.
  intros Hdrop Hintf Haddrs. unfold dropped in Hdrop.
  dump_step. rewrite Hdrop, Hintf, Haddrs. simpl.
  by rewrite hex_loop_map.
Qed.

(** The shapes of the slot list, by the value the loop computes. *)
Lemma len_loop_shape addrs :
  len_loop 0 addrs 0 < 2
  ∨ (exists a0 a1 rest,
        addrs = Some a0 :: Some a1 :: None :: rest ∧ len_loop 0 addrs 0 = 2)
  ∨ (exists a0 a1 a2 rest,
        addrs = Some a0 :: Some a1 :: Some a2 :: None :: rest ∧ len_loop 0 addrs 0 = 3)
  ∨ (exists a0 a1 a2 a3 rest,
        addrs = Some a0 :: Some a1 :: Some a2 :: Some a3 :: rest
        ∧ 4 <= len_loop 0 addrs 0).
Proof.
  destruct addrs as [|[a0|] [|[a1|] [|[a2|] [|[a3|] rest]]]];
    try (left; simpl; lia);
    try (right; left; eexists _, _, _; split; reflexivity);
    try (right; right; left; eexists _, _, _, _; split; reflexivity).
  change (len_loop 0 (Some a0 :: Some a1 :: Some a2 :: Some a3 :: rest) 0)
    with (len_loop 4 rest 0).
  destruct (len_loop_range rest 4 0) as [->|Hle]; [left; lia|].
  right; right; right. eexists _, _, _, _, _. split; [reflexivity|exact Hle].
Qed.

Ltac dump_unfold :=
  unfold dump, func, bind, index, Family_of, fmt_Printf, writer_Write,
    written, printed, ret, return_.

(** Case analysis on the tests that remain once the slots are known. *)
Ltac by_tests :=
  simpl;
  repeat match goal with
    | |- context [(?af =? ?k)] => is_var af; destruct (af =? k) eqn:?; simpl
    | |- context [((net.Size ?mk).1 =? 0)] => destruct ((net.Size mk).1 =? 0); simpl
    end.

Ltac one_line :=
  right; left; split; [reflexivity|]; eexists _, _; intros ?; reflexivity.

Ltac one_row :=
  right; right; split; [reflexivity|];
  eexists _, _, _, _, _, _;
  split; [reflexivity|];
  split; [reflexivity|];
  split; [first [left; reflexivity | right; reflexivity]|];
  split; [intros Hthree; first [discriminate Hthree | eexists; reflexivity]|];
  intros ?; reflexivity.

(** What one call of [dump] does to the state, whatever the state: nothing
    (the message is dropped by the flag rule), one diagnostic line on
    [os.Stdout], or one row in the tab writer. It never panics and never
    ends the process. A row needs a resolved interface, an IPv4 address in
    slot 0, a gateway of the IPv4 or link family in slot 1 and, when three
    slots are populated, an IPv4 address in slot 2. *)
Lemma dump_cases env i m :
  (dropped m = true ∧ forall s, dump env i m s = Normal tt s)
  ∨ (dropped m = false ∧
     exists format args, forall s,
       dump env i m s = Normal tt (printed (Printf format args) s))
  ∨ (dropped m = false ∧
     exists name d a1 tail destination gateway,
       InterfaceByIndex env (Index m) = inl name
       ∧ Addrs m = Some (Inet4Addr d) :: Some a1 :: tail
       ∧ (Family a1 = syscall.AF_INET ∨ Family a1 = syscall.AF_LINK)
       ∧ (populated (Addrs m) = 3%nat -> exists mask, tail !! 0%nat = Some (Some (Inet4Addr mask)))
       ∧ forall s,
           dump env i m s =
             Normal tt (written (row destination gateway name (getFlags (Flags m))) s)).
Proof.
  destruct m as [ty fl ix addrs]. unfold dropped. dump_unfold.
  cbn [Flags Index Addrs].
  destruct (isFlagGateway fl && isFlagHost fl && isFlagIFRef fl);
    [left; split; [reflexivity|]; intros [out err w]; reflexivity|].
  destruct (InterfaceByIndex env ix) as [name|e]; [|one_line].
  destruct (len_loop_shape addrs)
    as [Hlen|[(a0 & a1 & rest & -> & Hlen)|[(a0 & a1 & a2 & rest & -> & Hlen)
       |(a0 & a1 & a2 & a3 & rest & -> & Hlen)]]].
  - apply Z.ltb_lt in Hlen. rewrite Hlen. one_line.
  - rewrite Hlen.
    destruct a0, a1; by_tests; first [one_line | one_row].
  - rewrite Hlen.
    destruct a0, a1, a2; by_tests; first [one_line | one_row].
  - assert ((len_loop 0 (Some a0 :: Some a1 :: Some a2 :: Some a3 :: rest) 0 <? 2) = false)
      as -> by (apply Z.ltb_ge; lia).
    assert ((len_loop 0 (Some a0 :: Some a1 :: Some a2 :: Some a3 :: rest) 0 =? 3) = false)
      as -> by (apply Z.eqb_neq; lia).
    destruct a0, a1; by_tests; first [one_line | one_row].
Qed.

Arguments net.IPv4Mask : simpl never.

Lemma dropped_true m :
  dropped m = true <->
  Z.land (Flags m) syscall.RTF_GATEWAY = syscall.RTF_GATEWAY
  ∧ Z.land (Flags m) syscall.RTF_HOST = syscall.RTF_HOST
  ∧ Z.land (Flags m) syscall.RTF_IFREF = syscall.RTF_IFREF.
Proof.
  unfold dropped, isFlagGateway, isFlagHost, isFlagIFRef.
  rewrite !andb_true_iff, !Z.eqb_eq. tauto.
Qed.

(** C3. A message whose flags have the gateway, host and
    interface-reference bits all set is dropped at once: [dump] returns
    with the state unchanged, so it writes no row (and no diagnostic),
    whatever the rest of the message and the interface table. *)
Theorem dump_drops_gateway_host_ifref env i m s :
  Z.land (Flags m) syscall.RTF_GATEWAY = syscall.RTF_GATEWAY ->
  Z.land (Flags m) syscall.RTF_HOST = syscall.RTF_HOST ->
  Z.land (Flags m) syscall.RTF_IFREF = syscall.RTF_IFREF ->
  dump env i m s = Normal tt s.
Proof.
  intros Hg Hh Hr.
  assert (dropped m = true) as Hd by (by apply dropped_true).
  destruct (dump_cases env i m) as [[_ H]|[[Hf _]|[Hf _]]]; [apply H|congruence..].
Qed.

Lemma dump_drops_gateway_host_ifref_witness :
  dump (env_of [Route msg_ifref]) 0 msg_ifref initial = Normal tt initial.
Proof.
  apply (dump_drops_gateway_host_ifref (env_of [Route msg_ifref]) 0 msg_ifref initial);
    reflexivity.
Defined.

(** C2, where the code departs from it. A message all of whose eight
    slots are populated has no absent slot, so the loop leaves [len] at 0
    and [dump] reports "at least 2 entries" and writes no row, although
    eight slots, destination and gateway among them, are populated. *)
Theorem dump_all_slots_populated :
  populated (Addrs msg_all_slots) = 8%nat
  ∧ len_loop 0 (Addrs msg_all_slots) 0 = 0
  ∧ dump (env_of [Route msg_all_slots]) 0 msg_all_slots initial =
      Normal tt
        (printed (Printf "address should have at least 2 entries, but got %v\n"
                    [ARouteMessage msg_all_slots]) initial).
Proof. repeat split; reflexivity. Qed.

(** The validation is as C2 says whenever some slot is absent: [len] is
    the number of populated leading slots, a message with fewer than two
    is reported and skipped, and a message with two or more passes the
    test [len < 2]. *)
Lemma dump_address_count env i m s name :
  dropped m = false ->
  InterfaceByIndex env (Index m) = inl name ->
  None ∈ Addrs m ->
  len_loop 0 (Addrs m) 0 = Z.of_nat (populated (Addrs m))
  ∧ ((populated (Addrs m) < 2)%nat ->
     dump env i m s =
       Normal tt (printed (Printf "address should have at least 2 entries, but got %v\n"
                             [ARouteMessage m]) s))
  ∧ ((2 <= populated (Addrs m))%nat -> (len_loop 0 (Addrs m) 0 <? 2) = false).
Proof.
  intros Hdrop Hintf Hnone.
  assert (len_loop 0 (Addrs m) 0 = Z.of_nat (populated (Addrs m))) as Hlen.
  { rewrite len_loop_populated by done. lia. }
  split; [done|]. split.
  - intros Hlt. unfold dropped in Hdrop.
    dump_unfold. rewrite Hdrop, Hintf, Hlen.
    destruct (Z.ltb_spec (Z.of_nat (populated (Addrs m))) 2); [done|lia].
  - intros Hge. rewrite Hlen. apply Z.ltb_ge. lia.
Qed.



Lemma map_fmt_x hw : map fmt.x hw = map hex_minimal hw.
Proof. apply map_ext. intros b. apply fmt_x_minimal. Qed.

Lemma len_loop_four a0 a1 a2 a3 rest :
  None ∈ rest ->
  4 <= len_loop 0 (Some a0 :: Some a1 :: Some a2 :: Some a3 :: rest) 0.
Proof.
  intros Hnone.
  change (len_loop 0 (Some a0 :: Some a1 :: Some a2 :: Some a3 :: rest) 0)
    with (len_loop 4 rest 0).
  rewrite len_loop_populated by done. lia.
Qed.

(** C4, as the code has it. For a message the flag rule keeps, whose
    interface resolves, with an IPv4 destination and a link-layer gateway:
    with exactly two populated slots the gateway field is the hardware
    bytes in minimal lowercase hexadecimal joined by ":"; with exactly
    three populated slots, the third an IPv4 netmask, it is "link#" and
    the link address's own index; with four or more populated slots
    before an absent one it is again the colon-separated hexadecimal
    bytes, and the destination is the bare dotted quad. *)
Theorem dump_link_gateway env i m s d ix nm hw tail name :
  dropped m = false ->
  InterfaceByIndex env (Index m) = inl name ->
  Addrs m = Some (Inet4Addr d) :: Some (LinkAddr ix nm hw) :: tail ->
  (forall rest, tail = None :: rest ->
     dump env i m s =
       Normal tt (written (row (dotted d) (strings_Join (map hex_minimal hw) ":") name
                             (getFlags (Flags m))) s))
  ∧ (forall mask rest, tail = Some (Inet4Addr mask) :: None :: rest ->
     exists destination,
       dump env i m s =
         Normal tt (written (row destination ("link#" +:+ fmt.d ix) name
                               (getFlags (Flags m))) s))
  ∧ (forall a2 a3 rest, tail = Some a2 :: Some a3 :: rest -> None ∈ rest ->
     dump env i m s =
       Normal tt (written (row (dotted d) (strings_Join (map hex_minimal hw) ":") name
                             (getFlags (Flags m))) s)).
Proof.
  intros Hdrop Hintf Haddrs. split; [|split].
  - intros rest ->. rewrite <- map_fmt_x.
    by apply (dump_two_slots_link env i m s d ix nm hw name rest).
  - intros mask rest ->. unfold dropped in Hdrop.
    dump_unfold. rewrite Hdrop, Hintf, Haddrs. simpl.
    destruct ((net.Size _).1 =? 0); eexists; reflexivity.
  - intros a2 a3 rest -> Hnone. unfold dropped in Hdrop.
    pose proof (len_loop_four (Inet4Addr d) (LinkAddr ix nm hw) a2 a3 rest Hnone) as Hlen.
    dump_unfold. rewrite Hdrop, Hintf, Haddrs.
    assert ((len_loop 0 (Some (Inet4Addr d) :: Some (LinkAddr ix nm hw)
                           :: Some a2 :: Some a3 :: rest) 0 <? 2) = false)
      as -> by (apply Z.ltb_ge; lia).
    assert ((len_loop 0 (Some (Inet4Addr d) :: Some (LinkAddr ix nm hw)
                           :: Some a2 :: Some a3 :: rest) 0 =? 3) = false)
      as -> by (apply Z.eqb_neq; lia).
    simpl. by rewrite hex_loop_map, map_fmt_x.
Qed.

Lemma dump_link_gateway_witness :
  dump (env_of []) 0 msg_two_slots_link initial =
    Normal tt (written (row "10.0.0.0" "2:ab" "en0" ["RTF_UP"]) initial)
  ∧ (exists destination,
       dump (env_of []) 0 msg_three_slots_link initial =
         Normal tt (written (row destination "link#7" "en0" ["RTF_UP"]) initial))
  ∧ dump (env_of []) 0 msg_four_slots initial =
      Normal tt (written (row "10.0.0.0" "2:ab" "en0" ["RTF_UP"]) initial).
Proof.
  split; [|split].
  - apply (proj1 (dump_link_gateway (env_of []) 0 msg_two_slots_link initial
                    (ip4 10 0 0 0) 7 "en1" [Zbyte 2; Zbyte 171] (replicate 6 None) "en0"
                    eq_refl eq_refl eq_refl) (replicate 5 None) eq_refl).
  - apply (proj1 (proj2 (dump_link_gateway (env_of []) 0 msg_three_slots_link initial
                    (ip4 10 0 0 0) 7 "en1" [Zbyte 2; Zbyte 171]
                    (Some (Inet4Addr (ip4 255 255 255 0)) :: replicate 5 None) "en0"
                    eq_refl eq_refl eq_refl))
             (ip4 255 255 255 0) (replicate 4 None) eq_refl).
  - apply (proj2 (proj2 (dump_link_gateway (env_of []) 0 msg_four_slots initial
                    (ip4 10 0 0 0) 7 "en1" [Zbyte 2; Zbyte 171]
                    (Some (Inet4Addr (ip4 255 255 255 0)) :: Some (Inet4Addr (ip4 0 0 0 0))
                       :: replicate 4 None) "en0"
                    eq_refl eq_refl eq_refl))
             (Inet4Addr (ip4 255 255 255 0)) (Inet4Addr (ip4 0 0 0 0)) (replicate 4 None)
             eq_refl).
    simpl. constructor.
Defined.

(** C4 as stated fails: in this message the netmask slot is present
    (four slots are populated), and the link-layer gateway is rendered as
    its hardware bytes, not as "link#7". *)
Lemma link_gateway_with_netmask_not_link_index :
  Addrs msg_four_slots !! 1%nat = Some (Some (LinkAddr 7 "en1" [Zbyte 0x02; Zbyte 0xab]))
  ∧ Addrs msg_four_slots !! 2%nat = Some (Some (Inet4Addr (ip4 255 255 255 0)))
  ∧ dump (env_of [Route msg_four_slots]) 0 msg_four_slots initial =
      Normal tt (written (row "10.0.0.0" "2:ab" "en0" ["RTF_UP"]) initial)
  ∧ "2:ab" ≠ "link#7".
Proof. repeat split; try reflexivity. discriminate. Qed.

(** C1, as the code has it. For a message the flag rule keeps, whose
    interface resolves, with an IPv4 destination and a gateway of a known
    kind. With exactly three populated slots, the third an IPv4 netmask,
    the row's destination is: for a canonical mask (ones followed by
    zeros) with N > 0 leading one-bits in its big-endian 32-bit value, the
    dotted quad of slot 0, "/" and N; for the all-zero mask, "default";
    and for a mask that is not canonical, "default" as well. With four or
    more populated slots before an absent slot the third slot is not used,
    whatever it holds, and the destination is the bare dotted quad. *)
Theorem dump_destination_netmask env i m s d gw tail name :
  dropped m = false ->
  InterfaceByIndex env (Index m) = inl name ->
  Addrs m = Some (Inet4Addr d) :: Some gw :: tail ->
  known_gateway gw = true ->
  (forall mask rest, tail = Some (Inet4Addr mask) :: None :: rest ->
     exists gateway,
       dump env i m s =
         Normal tt (written (row (destination_with_mask d mask) gateway name
                               (getFlags (Flags m))) s))
  ∧ (forall a2 a3 rest, tail = Some a2 :: Some a3 :: rest -> None ∈ rest ->
     exists gateway,
       dump env i m s =
         Normal tt (written (row (dotted d) gateway name (getFlags (Flags m))) s)).
Proof.
  intros Hdrop Hintf Haddrs Hgw. unfold dropped in Hdrop. split.
  - intros mask rest ->. unfold destination_with_mask.
    dump_unfold. rewrite Hdrop, Hintf, Haddrs. simpl.
    rewrite Size_IPv4Mask.
    destruct (canonical 32 _); simpl;
      [destruct (leading_ones 32 _ =? 0)|];
      destruct gw; try discriminate Hgw; simpl; eexists; reflexivity.
  - intros a2 a3 rest -> Hnone.
    pose proof (len_loop_four (Inet4Addr d) gw a2 a3 rest Hnone) as Hlen.
    dump_unfold. rewrite Hdrop, Hintf, Haddrs.
    assert ((len_loop 0 (Some (Inet4Addr d) :: Some gw :: Some a2 :: Some a3 :: rest) 0
               <? 2) = false)
      as -> by (apply Z.ltb_ge; lia).
    assert ((len_loop 0 (Some (Inet4Addr d) :: Some gw :: Some a2 :: Some a3 :: rest) 0
               =? 3) = false)
      as -> by (apply Z.eqb_neq; lia).
    destruct gw; try discriminate Hgw; simpl; eexists; reflexivity.
Qed.

Lemma dump_destination_netmask_witness :
  (exists gateway,
      dump (env_of []) 0 msg_slash24 initial =
        Normal tt (written (row (destination_with_mask (ip4 192 168 1 0)
                                   (ip4 255 255 255 0))
                              gateway "en0" (getFlags (Flags msg_slash24))) initial))
  ∧ (exists gateway,
        dump (env_of []) 0 msg_four_slots initial =
          Normal tt (written (row (dotted (ip4 10 0 0 0)) gateway "en0"
                                (getFlags (Flags msg_four_slots))) initial)).
Proof.
  split.
  - apply (proj1 (dump_destination_netmask (env_of []) 0 msg_slash24 initial
                    (ip4 192 168 1 0) (Inet4Addr (ip4 10 0 0 1))
                    (Some (Inet4Addr (ip4 255 255 255 0)) :: replicate 5 None) "en0"
                    eq_refl eq_refl eq_refl eq_refl)
             (ip4 255 255 255 0) (replicate 4 None) eq_refl).
  - apply (proj2 (dump_destination_netmask (env_of []) 0 msg_four_slots initial
                    (ip4 10 0 0 0) (LinkAddr 7 "en1" [Zbyte 2; Zbyte 171])
                    (Some (Inet4Addr (ip4 255 255 255 0)) :: Some (Inet4Addr (ip4 0 0 0 0))
                       :: replicate 4 None) "en0"
                    eq_refl eq_refl eq_refl eq_refl)
             (Inet4Addr (ip4 255 255 255 0)) (Inet4Addr (ip4 0 0 0 0)) (replicate 4 None)
             eq_refl).
    simpl. constructor.
Defined.

(** The masks the specification names. *)
Lemma destination_with_mask_examples :
  destination_with_mask (ip4 192 168 1 0) (ip4 255 255 255 0) = "192.168.1.0/24"
  ∧ destination_with_mask (ip4 192 168 1 7) (ip4 255 255 255 255) = "192.168.1.7/32"
  ∧ destination_with_mask (ip4 0 0 0 0) (ip4 0 0 0 0) = "default"
  ∧ destination_with_mask (ip4 10 0 0 0) (ip4 255 0 255 0) = "default".
Proof. repeat split; reflexivity. Qed.

(** C1 as stated fails. The netmask 255.0.255.0 has 8 leading one-bits
    and is not all zero, yet the destination is "default", not
    "10.0.0.0/8"; and with four populated slots the netmask 255.255.255.0
    in the third slot is not used: the destination is the bare
    "10.0.0.0", not "10.0.0.0/24". *)
Lemma netmask_not_rendered_as_leading_ones :
  (Addrs msg_noncanonical !! 2%nat = Some (Some (Inet4Addr (ip4 255 0 255 0)))
   ∧ leading_ones 32 (be32 (Zbyte 255) (Zbyte 0) (Zbyte 255) (Zbyte 0)) = 8
   ∧ dump (env_of [Route msg_noncanonical]) 0 msg_noncanonical initial =
       Normal tt (written (row "default" "10.0.0.1" "en0" ["RTF_GATEWAY"; "RTF_UP"]) initial))
  ∧ (Addrs msg_four_slots !! 2%nat = Some (Some (Inet4Addr (ip4 255 255 255 0)))
     ∧ leading_ones 32 (be32 (Zbyte 255) (Zbyte 255) (Zbyte 255) (Zbyte 0)) = 24
     ∧ dump (env_of [Route msg_four_slots]) 0 msg_four_slots initial =
         Normal tt (written (row "10.0.0.0" "2:ab" "en0" ["RTF_UP"]) initial)).
Proof. repeat split; reflexivity. Qed.

(** ** [main] *)

(** [dump] does not read its first argument. *)
Lemma dump_index env i j m : dump env i m = dump env j m.
Proof. reflexivity. Qed.

(** One call of [dump] adds to the state what it does on its own. *)
Lemma dump_frame env i m s :
  dump env i m s =
    Normal tt (mkState (os_Stdout s ++ os_Stdout (alone env (Route m)))
                       (os_Stderr s)
                       (writer s +:+ writer (alone env (Route m)))).
Proof.
  unfold alone. rewrite (dump_index env i 0 m).
  destruct (dump_cases env 0 m)
    as [[_ H]|[[_ (format & args & H)]|[_ (name & d & a1 & tail & dst & gw & _ & _ & _ & _ & H)]]];
    rewrite !H; destruct s as [out err w]; unfold printed, written; simpl.
  - by rewrite app_nil_r, append_nil_r.
  - by rewrite append_nil_r.
  - by rewrite app_nil_r.
Qed.

(** The loop of [main] adds the lines and the rows of the messages. *)
Lemma range_from_frame env msgs : forall i s,
  range_from i msgs
    (fun i msg =>
       match msg with
       | Route m => dump env i m
       | _ => fmt_Println [AStr "received non route message: "; AMessage msg]
       end) s =
  Normal tt (mkState (os_Stdout s ++ lines_of env msgs) (os_Stderr s)
                     (writer s +:+ rows_of env msgs)).
Proof.
  induction msgs as [|msg msgs IH]; intros i s.
  - destruct s as [out err w]. simpl.
    by rewrite app_nil_r, append_nil_r.
  - cbn [range_from]. unfold bind at 1.
    assert (match msg with
            | Route m => dump env i m
            | _ => fmt_Println [AStr "received non route message: "; AMessage msg]
            end s =
            Normal tt (mkState (os_Stdout s ++ os_Stdout (alone env msg)) (os_Stderr s)
                               (writer s +:+ writer (alone env msg)))) as ->.
    { destruct msg as [m|kind]; [apply dump_frame|].
      destruct s as [out err w]. unfold fmt_Println, alone. simpl.
      by rewrite append_nil_r. }
    rewrite IH. cbn [os_Stdout os_Stderr writer lines_of rows_of flat_map foldr].
    by rewrite <- app_assoc, append_assoc.
Qed.

(** A run whose fetch and parse succeed: the banner, then the lines of
    the messages, then the flushed table, all on [os.Stdout]; nothing on
    [os.Stderr]; the process ends normally. *)
Lemma run_ok env pkt msgs :
  FetchRIB env = inl pkt ->
  ParseRIB env pkt = inl msgs ->
  run env =
    Normal tt
      (mkState (Println [AStr banner] :: lines_of env msgs
                  ++ [Tabbed 10 2 2 " " 0 (header +:+ rows_of env msgs)])
               [] "").
Proof.
  intros Hfetch Hparse.
  unfold run, main, func, bind at 1 2 3 4, defer, range, fmt_Println at 1.
  rewrite Hfetch. unfold ret at 1. rewrite Hparse. unfold ret at 1.
  unfold tabwriter_NewWriter, bind, writer_Write at 1.
  rewrite range_from_frame. reflexivity.
Qed.

(** A run whose fetch or parse fails: the banner on [os.Stdout], the
    error on [os.Stderr], exit status 1, and no table. *)
Lemma run_fatal env :
  fatal env ->
  exists e, run env = OsExit 1 (mkState [Println [AStr banner]] [LogFatal e] "").
Proof.
  unfold fatal, run, main, func, bind, fmt_Println, log_Fatal, ret.
  destruct (FetchRIB env) as [pkt|e]; [|intros _; by exists e].
  destruct (ParseRIB env pkt) as [msgs|e]; [done|intros _; by exists e].
Qed.

Lemma fatal_or_ok env :
  fatal env ∨ exists pkt msgs, FetchRIB env = inl pkt ∧ ParseRIB env pkt = inl msgs.
Proof.
  unfold fatal. destruct (FetchRIB env) as [pkt|e]; [|by left].
  destruct (ParseRIB env pkt) as [msgs|e] eqn:Hparse; [right; by exists pkt, msgs|by left].
Qed.

(** C5, as the code has it. When the parsed table is the single default
    route (destination 0.0.0.0, gateway 10.0.0.1, netmask 0.0.0.0, flags
    UP|GATEWAY, interface "en0"), the run writes the banner and then the
    table: the header row and one row with the fields "default",
    "10.0.0.1", "en0" and "[RTF_GATEWAY RTF_UP]" — the flag names
    separated by a space, in square brackets. *)
Theorem run_default_route env pkt m rest :
  FetchRIB env = inl pkt ->
  ParseRIB env pkt = inl [Route m] ->
  Flags m = Z.lor syscall.RTF_UP syscall.RTF_GATEWAY ->
  InterfaceByIndex env (Index m) = inl "en0" ->
  Addrs m = Some (Inet4Addr (ip4 0 0 0 0)) :: Some (Inet4Addr (ip4 10 0 0 1))
              :: Some (Inet4Addr (ip4 0 0 0 0)) :: None :: rest ->
  run env =
    Normal tt
      (mkState [Println [AStr banner];
                Tabbed 10 2 2 " " 0
                  (("Destination" +:+ TAB +:+ "Gateway" +:+ TAB +:+ "Netif" +:+ TAB
                      +:+ "Flags" +:+ NL)
                   +:+ ("default" +:+ TAB +:+ "10.0.0.1" +:+ TAB +:+ "en0" +:+ TAB
                          +:+ "[RTF_GATEWAY RTF_UP]" +:+ NL))]
               [] "").
Proof.
  intros Hfetch Hparse Hflags Hintf Haddrs.
  rewrite (run_ok env pkt [Route m] Hfetch Hparse).
  destruct m as [ty fl ix addrs]. cbn [Flags Index Addrs] in *. subst fl addrs.
  unfold lines_of, rows_of, alone. cbn [flat_map foldr].
  dump_unfold. cbn [Flags Index Addrs]. rewrite Hintf.
  reflexivity.
Qed.

Lemma run_default_route_witness :
  run (env_of [Route msg_default]) =
    Normal tt
      (mkState [Println [AStr banner];
                Tabbed 10 2 2 " " 0
                  (("Destination" +:+ TAB +:+ "Gateway" +:+ TAB +:+ "Netif" +:+ TAB
                      +:+ "Flags" +:+ NL)
                   +:+ ("default" +:+ TAB +:+ "10.0.0.1" +:+ TAB +:+ "en0" +:+ TAB
                          +:+ "[RTF_GATEWAY RTF_UP]" +:+ NL))]
               [] "").
Proof.
  apply (run_default_route (env_of [Route msg_default]) [] msg_default (replicate 4 None));
    reflexivity.
Defined.

(** C5 as stated fails: the flags field of the row of the default route
    is "[RTF_GATEWAY RTF_UP]", not "RTF_GATEWAY,RTF_UP". *)
Lemma default_route_flags_not_comma_joined :
  run (env_of [Route msg_default]) =
    Normal tt
      (mkState [Println [AStr banner];
                Tabbed 10 2 2 " " 0
                  (header +:+ row "default" "10.0.0.1" "en0" (getFlags up_gateway))]
               [] "")
  ∧ row "default" "10.0.0.1" "en0" (getFlags up_gateway) =
      "default" +:+ TAB +:+ "10.0.0.1" +:+ TAB +:+ "en0" +:+ TAB
        +:+ "[RTF_GATEWAY RTF_UP]" +:+ NL
  ∧ fmt.v_strings (getFlags up_gateway) = "[RTF_GATEWAY RTF_UP]"
  ∧ fmt.v_strings (getFlags up_gateway) ≠ "RTF_GATEWAY,RTF_UP".
Proof. repeat split; try reflexivity. discriminate. Qed.

Lemma populated_two a0 a1 (tail : list (option Addr)) :
  (2 <= populated (Some a0 :: Some a1 :: tail))%nat.
Proof. simpl. lia. Qed.

(** A per-record condition on a message the flag rule keeps gives one
    diagnostic line and no row. *)
Lemma dump_condition_one_line env i m :
  dropped m = false ->
  unresolvable env m ∨ too_few_slots m ∨ destination_not_ipv4 m
    ∨ gateway_family_unknown m ∨ netmask_malformed_three_slots m ->
  exists format args, forall s,
    dump env i m s = Normal tt (printed (Printf format args) s).
Proof.
  intros Hdrop Hcond.
  destruct (dump_cases env i m)
    as [[Hd _]|[[_ H]|[_ (name & d & a1 & tail & dst & gw & Hintf & Haddrs & Hfam & Hmask & _)]]];
    [congruence|exact H|exfalso].
  destruct Hcond as [[e He]|[Hfew|[(a0 & Ha0 & Hnot)|[(a1' & Ha1 & Hf1 & Hf2)|[Hthree (a2 & Ha2 & Hnot)]]]]].
  - congruence.
  - unfold too_few_slots in Hfew. rewrite Haddrs in Hfew.
    pose proof (populated_two (Inet4Addr d) a1 tail). lia.
  - rewrite Haddrs in Ha0. simpl in Ha0. injection Ha0 as <-. by apply (Hnot d).
  - rewrite Haddrs in Ha1. simpl in Ha1. injection Ha1 as <-. by destruct Hfam.
  - destruct (Hmask Hthree) as [mask Hm].
    rewrite Haddrs in Ha2. simpl in Ha2. rewrite Hm in Ha2.
    injection Ha2 as <-. by apply (Hnot mask).
Qed.

(** C7, as the code has it. The exit status is non-zero exactly when the
    fetch or the parse fails, and then it is 1 and only the banner has
    been written: no table. Otherwise the status is 0 and the output is
    the banner, the lines of the messages and the table of their rows,
    each message contributing what it does on its own. On a message the
    flag rule keeps, each per-record condition — unresolvable interface,
    fewer than two populated slots, a destination that is not IPv4, a
    gateway of an unknown family, a malformed netmask slot in a message
    with exactly three populated slots — gives one diagnostic line and no
    row, and the run goes on. *)
Theorem run_exit_status env :
  (exit_status (run env) ≠ 0 <-> fatal env)
  ∧ (fatal env ->
     exit_status (run env) = 1
     ∧ os_Stdout (final (run env)) = [Println [AStr banner]])
  ∧ (forall pkt msgs,
       FetchRIB env = inl pkt -> ParseRIB env pkt = inl msgs ->
       exit_status (run env) = 0
       ∧ os_Stdout (final (run env)) =
           Println [AStr banner] :: lines_of env msgs
             ++ [Tabbed 10 2 2 " " 0 (header +:+ rows_of env msgs)])
  ∧ (forall i m,
       dropped m = false ->
       unresolvable env m ∨ too_few_slots m ∨ destination_not_ipv4 m
         ∨ gateway_family_unknown m ∨ netmask_malformed_three_slots m ->
       (exists format args, forall s,
           dump env i m s = Normal tt (printed (Printf format args) s))
       ∧ writer (alone env (Route m)) = ""
       ∧ length (os_Stdout (alone env (Route m))) = 1%nat).
Proof.
  split; [|split; [|split]].
  - destruct (fatal_or_ok env) as [Hfatal|(pkt & msgs & Hfetch & Hparse)].
    + destruct (run_fatal env Hfatal) as [e ->]. simpl. by split.
    + rewrite (run_ok env pkt msgs Hfetch Hparse). simpl.
      unfold fatal. rewrite Hfetch, Hparse. by split.
  - intros Hfatal. destruct (run_fatal env Hfatal) as [e ->]. by split.
  - intros pkt msgs Hfetch Hparse.
    rewrite (run_ok env pkt msgs Hfetch Hparse). by split.
  - intros i m Hdrop Hcond.
    destruct (dump_condition_one_line env i m Hdrop Hcond) as (format & args & H).
    split; [by exists format, args|].
    unfold alone. rewrite (dump_index env 0 i m), H. by split.
Qed.

Lemma run_exit_status_witness :
  (exit_status (run env_no_fetch) = 1
   ∧ os_Stdout (final (run env_no_fetch)) = [Println [AStr banner]])
  ∧ (exit_status (run env_mixed) = 0
     ∧ os_Stdout (final (run env_mixed)) =
         Println [AStr banner]
           :: lines_of env_mixed
                [Route msg_one_slot; Other "InterfaceMessage"; Route msg_default]
           ++ [Tabbed 10 2 2 " " 0
                 (header +:+ rows_of env_mixed
                    [Route msg_one_slot; Other "InterfaceMessage"; Route msg_default])])
  ∧ ((exists format args, forall s,
         dump env_mixed 0 msg_no_interface s = Normal tt (printed (Printf format args) s))
     ∧ writer (alone env_mixed (Route msg_no_interface)) = ""
     ∧ length (os_Stdout (alone env_mixed (Route msg_no_interface))) = 1%nat).
Proof.
  split; [|split].
  - apply (proj1 (proj2 (run_exit_status env_no_fetch))). exact I.
  - apply (proj1 (proj2 (proj2 (run_exit_status env_mixed))) []); reflexivity.
  - apply (proj2 (proj2 (proj2 (run_exit_status env_mixed))) 0 msg_no_interface).
    + reflexivity.
    + left. by exists "no such network interface".
Defined.

(** C7 as stated fails: in this message, which the flag rule keeps, the
    netmask slot is malformed (the third slot holds a link address), yet
    [dump] prints no diagnostic and writes a row, because four slots are
    populated and the third is read only when there are exactly three.
    The run ends with status 0 and the row is in the table. *)
Lemma malformed_netmask_not_reported :
  dropped msg_four_slots_no_mask = false
  ∧ netmask_malformed msg_four_slots_no_mask
  ∧ dump (env_of [Route msg_four_slots_no_mask]) 0 msg_four_slots_no_mask initial =
      Normal tt (written (row "10.0.0.0" "10.0.0.1" "en0" ["RTF_UP"]) initial)
  ∧ os_Stdout (alone (env_of [Route msg_four_slots_no_mask])
                 (Route msg_four_slots_no_mask)) = []
  ∧ run (env_of [Route msg_four_slots_no_mask]) =
      Normal tt
        (mkState [Println [AStr banner];
                  Tabbed 10 2 2 " " 0
                    (header +:+ row "10.0.0.0" "10.0.0.1" "en0" ["RTF_UP"])]
                 [] "").
Proof.
  split; [reflexivity|]. split; [|repeat split; reflexivity].
  exists (LinkAddr 7 "en1" [Zbyte 0x02; Zbyte 0xab]). split; [reflexivity|].
  intros ip. discriminate.
Qed.

(** C8, as the code has it. The banner is the first line on [os.Stdout];
    [os.Stderr] receives nothing but the error of a fatal fetch or parse;
    [dump] never writes to [os.Stderr]; and in a run that is not fatal
    [os.Stderr] stays empty while [os.Stdout] carries the banner, the
    diagnostic lines of the records and of the messages of other kinds,
    and then the table. *)
Theorem run_streams env :
  (exists rest, os_Stdout (final (run env)) = Println [AStr banner] :: rest)
  ∧ (forall o, o ∈ os_Stderr (final (run env)) -> exists e, o = LogFatal e)
  ∧ (forall i m s, os_Stderr (final (dump env i m s)) = os_Stderr s)
  ∧ (forall pkt msgs,
       FetchRIB env = inl pkt -> ParseRIB env pkt = inl msgs ->
       os_Stderr (final (run env)) = []
       ∧ os_Stdout (final (run env)) =
           Println [AStr banner] :: lines_of env msgs
             ++ [Tabbed 10 2 2 " " 0 (header +:+ rows_of env msgs)]).
Proof.
  split; [|split; [|split]].
  - destruct (fatal_or_ok env) as [Hfatal|(pkt & msgs & Hfetch & Hparse)].
    + destruct (run_fatal env Hfatal) as [e ->]. by eexists.
    + rewrite (run_ok env pkt msgs Hfetch Hparse). by eexists.
  - intros o. destruct (fatal_or_ok env) as [Hfatal|(pkt & msgs & Hfetch & Hparse)].
    + destruct (run_fatal env Hfatal) as [e ->]. simpl.
      intros ->%list_elem_of_singleton. by exists e.
    + rewrite (run_ok env pkt msgs Hfetch Hparse). simpl.
      intros Hin. by apply elem_of_nil in Hin.
  - intros i m s. by rewrite dump_frame.
  - intros pkt msgs Hfetch Hparse.
    rewrite (run_ok env pkt msgs Hfetch Hparse). by split.
Qed.

Lemma run_streams_witness :
  (exists e, LogFatal "route: operation not permitted" = LogFatal e)
  ∧ (os_Stderr (final (run env_mixed)) = []
     ∧ os_Stdout (final (run env_mixed)) =
         Println [AStr banner]
           :: lines_of env_mixed
                [Route msg_one_slot; Other "InterfaceMessage"; Route msg_default]
           ++ [Tabbed 10 2 2 " " 0
                 (header +:+ rows_of env_mixed
                    [Route msg_one_slot; Other "InterfaceMessage"; Route msg_default])]).
Proof.
  split.
  - apply (proj1 (proj2 (run_streams env_no_fetch))). simpl. constructor.
  - apply (proj2 (proj2 (proj2 (run_streams env_mixed))) []); reflexivity.
Defined.

(** C8 as stated fails: in this run a record is skipped and a message of
    another kind is reported, and both lines, like the banner, are on
    [os.Stdout], the stream of the table; [os.Stderr] is empty. *)
Lemma diagnostics_on_stdout :
  os_Stdout (final (run env_mixed)) =
    [Println [AStr banner];
     Printf "address should have at least 2 entries, but got %v\n"
       [ARouteMessage msg_one_slot];
     Println [AStr "received non route message: "; AMessage (Other "InterfaceMessage")];
     Tabbed 10 2 2 " " 0
       (header +:+ row "default" "10.0.0.1" "en0" ["RTF_GATEWAY"; "RTF_UP"])]
  ∧ os_Stderr (final (run env_mixed)) = [].
Proof. split; reflexivity. Qed.

(** * Further properties of the code *)

(** ** [getFlags]: the names determine the known bits *)

Lemma land_single_bit t k :
  0 <= k -> Z.land t (2 ^ k) = 2 ^ k ∨ Z.land t (2 ^ k) = 0.
Proof.
  intros Hk. destruct (Z.testbit t k) eqn:Hbit.
  - left. by apply land_pow2_testbit.
  - right. apply Z.bits_inj'. intros n _.
    rewrite Z.land_spec, Z.pow2_bits_eqb, Z.bits_0 by done.
    destruct (Z.eqb_spec k n) as [<-|]; [by rewrite Hbit|apply andb_false_r].
Qed.

Lemma land_mask_distr t (tbl : list (Z * string)) :
  Z.land t (foldr (fun p m => Z.lor p.1 m) 0 tbl)
  = foldr (fun p m => Z.lor (Z.land t p.1) m) 0 tbl.
Proof.
  induction tbl as [|p tbl IH]; simpl; [apply Z.land_0_r|].
  by rewrite Z.land_lor_distr_r, IH.
Qed.

Lemma foldr_lor_ext t u (tbl : list (Z * string)) :
  (forall p, p ∈ tbl -> Z.land t p.1 = Z.land u p.1) ->
  foldr (fun p m => Z.lor (Z.land t p.1) m) 0 tbl
  = foldr (fun p m => Z.lor (Z.land u p.1) m) 0 tbl.
Proof.
  induction tbl as [|p tbl IH]; intros Hext; simpl; [done|].
  rewrite (Hext p) by (by left). rewrite IH; [done|].
  intros q Hq. apply Hext. by right.
Qed.

(** Two bitmasks get the same flag names exactly when they agree on the
    25 bits of the table: the names lose nothing of the known bits and
    keep nothing of the others. *)
Theorem getFlags_same_names t u :
  getFlags t = getFlags u <-> Z.land t flag_mask = Z.land u flag_mask.
Proof.
  split.
  - intros Heq. unfold flag_mask. rewrite !land_mask_distr.
    apply foldr_lor_ext. intros [c name] Hin. simpl.
    destruct (flag_table_single_bit c name Hin) as [Hc [Hk _]].
    pose proof (getFlags_elem t c name Hin) as Ht.
    pose proof (getFlags_elem u c name Hin) as Hu.
    rewrite Heq in Ht.
    destruct (land_single_bit t (Z.log2 c) Hk) as [Ht1|Ht0],
             (land_single_bit u (Z.log2 c) Hk) as [Hu1|Hu0];
      rewrite <- Hc in *; try congruence.
    + assert (Z.land u c = c) as Hu1 by (apply Hu, Ht, Ht1). congruence.
    + assert (Z.land t c = c) as Ht1 by (apply Ht, Hu, Hu1). congruence.
  - intros Heq. rewrite !getFlags_table. f_equal.
    apply filter_flag_set_ext. intros [c name] Hin. unfold flag_set; simpl.
    assert (forall v, Z.land v c = Z.land (Z.land v flag_mask) c) as Hmask.
    { intros v. by rewrite <- Z.land_assoc, (flag_table_in_mask c name Hin). }
    by rewrite (Hmask t), (Hmask u), Heq.
Qed.

(** ** [getTypes] *)

Lemma getTypes_table t : getTypes t = (filter (flag_set t) type_table).*2.
Proof.
  change (getTypes t) with (foldl (fun ret p => test_append t p.1 p.2 ret) [] type_table).
  by rewrite foldl_test_append.
Qed.

Lemma getTypes_elem t name :
  name ∈ getTypes t <-> exists c, (c, name) ∈ type_table ∧ Z.land t c = c.
Proof.
  rewrite getTypes_table, list_elem_of_fmap. split.
  - intros [[c name'] [-> [Hset Hin]%list_elem_of_filter]]. by exists c.
  - intros [c [Hin Hset]]. exists (c, name). split; [done|].
    by apply list_elem_of_filter.
Qed.

(** [getTypes t] is a subsequence of the fixed list of 21 names; a name
    is in it exactly when some statement that appends it has its test
    [t&c == c] true; and "RTM_DELADDR" is never in it, whatever [t]: the
    statement that tests [RTM_DELADDR] appends "RTM_ADD". *)
Theorem getTypes_names (t : Z) :
  getTypes t `sublist_of` type_names
  ∧ length type_names = 21%nat
  ∧ (forall name,
       name ∈ getTypes t <-> exists c, (c, name) ∈ type_table ∧ Z.land t c = c)
  ∧ "RTM_DELADDR" ∉ getTypes t.
Proof.
  assert (getTypes t `sublist_of` type_names) as Hsub.
  { rewrite getTypes_table. unfold type_names. apply fmap_sublist, sublist_filter. }
  split; [exact Hsub|]. split; [reflexivity|]. split; [apply getTypes_elem|].
  intros Hin. apply (elem_of_sublist _ _ _ Hin) in Hsub.
  revert Hsub. apply (bool_decide_unpack _). by vm_compute.
Qed.

Lemma occurrences_filter t name (tbl : list (Z * string)) :
  occurrences name (filter (flag_set t) tbl).*2
  = length (filter (flag_set t) (filter (fun p => p.2 = name) tbl)).
Proof.
  unfold occurrences. induction tbl as [|[c n] tbl IH]; [done|].
  rewrite (filter_cons (flag_set t) (c, n) tbl).
  rewrite (filter_cons (fun p : Z * string => p.2 = name) (c, n) tbl).
  destruct (decide (flag_set t (c, n))) as [Hset|Hset];
    destruct (decide ((c, n).2 = name)) as [Hname|Hname]; simpl in Hname.
  - rewrite fmap_cons, !filter_cons. simpl.
    destruct (decide (n = name)); [|done].
    destruct (decide (flag_set t (c, n))); [|done].
    simpl. by rewrite IH.
  - rewrite fmap_cons, filter_cons. simpl.
    by destruct (decide (n = name)).
  - rewrite filter_cons. by destruct (decide (flag_set t (c, n))).
  - done.
Qed.

(** The name "RTM_ADD" is appended once when [t&RTM_ADD == RTM_ADD] and
    once more when [t&RTM_DELADDR == RTM_DELADDR]: the result can hold it
    twice. *)
Theorem getTypes_RTM_ADD_twice (t : Z) :
  occurrences "RTM_ADD" (getTypes t)
  = Nat.add
      (if Z.land t syscall_RTM.RTM_ADD =? syscall_RTM.RTM_ADD then 1%nat else 0%nat)
      (if Z.land t syscall_RTM.RTM_DELADDR =? syscall_RTM.RTM_DELADDR then 1%nat else 0%nat).
Proof.
  rewrite getTypes_table, occurrences_filter.
  change (filter (fun p : Z * string => p.2 = "RTM_ADD") type_table)
    with [(syscall_RTM.RTM_ADD, "RTM_ADD"); (syscall_RTM.RTM_DELADDR, "RTM_ADD")].
  rewrite !filter_cons, filter_nil. unfold flag_set. simpl.
  destruct (Z.eqb_spec (Z.land t syscall_RTM.RTM_ADD) syscall_RTM.RTM_ADD),
           (Z.eqb_spec (Z.land t syscall_RTM.RTM_DELADDR) syscall_RTM.RTM_DELADDR);
    repeat destruct (decide _); simpl; congruence.
Qed.

(** The message types are codes and not single bits, and the test is
    [t&c == c]: a type whose code contains the code of another gets the
    name of the other too. For each entry [(c, name)] of the table,
    [getTypes c] has [name], and it has the name of every entry whose
    code is contained in [c]. *)
Theorem getTypes_contained_codes c name c' name' :
  (c, name) ∈ type_table ->
  (c', name') ∈ type_table ->
  Z.land c c' = c' ->
  name ∈ getTypes c ∧ name' ∈ getTypes c.
Proof.
  intros Hin Hin' Hsub.
  split; apply getTypes_elem.
  - exists c. split; [done|apply Z.land_diag].
  - by exists c'.
Qed.

Lemma getFlags_same_names_witness :
  getFlags (Z.lor 3 0x80000) = getFlags 3.
Proof. apply (proj2 (getFlags_same_names (Z.lor 3 0x80000) 3)). reflexivity. Defined.

Lemma getTypes_names_witness :
  "RTM_GET" ∈ getTypes 4.
Proof.
  apply (proj2 (proj1 (proj2 (proj2 (getTypes_names 4))) "RTM_GET")).
  exists syscall_RTM.RTM_GET. split; [|reflexivity].
  apply (bool_decide_unpack _). by vm_compute.
Defined.

Lemma getTypes_contained_codes_witness :
  "RTM_CHANGE" ∈ getTypes syscall_RTM.RTM_CHANGE
  ∧ "RTM_DELETE" ∈ getTypes syscall_RTM.RTM_CHANGE.
Proof.
  apply (getTypes_contained_codes syscall_RTM.RTM_CHANGE "RTM_CHANGE"
           syscall_RTM.RTM_DELETE "RTM_DELETE").
  - apply (bool_decide_unpack _). by vm_compute.
  - apply (bool_decide_unpack _). by vm_compute.
  - reflexivity.
Defined.

(** ** [dump]: what it never does *)

Lemma length_append (a b : string) :
  String.length (a +:+ b) = (String.length a + String.length b)%nat.
Proof.
  induction a as [|ch a IH]; [done|].
  change (String ch a +:+ b) with (String ch (a +:+ b)). simpl. by rewrite IH.
Qed.

Lemma row_not_empty destination gateway name flags :
  (0 < String.length (row destination gateway name flags))%nat.
Proof.
  unfold row. rewrite length_append.
  change (TAB +:+ ?x) with (String (Ascii.ascii_of_nat 9) x).
  simpl. lia.
Qed.

Lemma printed_changes o s : printed o s ≠ s.
Proof.
  intros Heq. apply (f_equal (fun st => length (os_Stdout st))) in Heq.
  unfold printed in Heq. simpl in Heq. rewrite length_app in Heq. simpl in Heq. lia.
Qed.

Lemma written_changes destination gateway name flags s :
  written (row destination gateway name flags) s ≠ s.
Proof.
  intros Heq. apply (f_equal (fun st => String.length (writer st))) in Heq.
  unfold written in Heq. simpl in Heq. rewrite length_append in Heq.
  pose proof (row_not_empty destination gateway name flags). lia.
Qed.

(** Whatever the message, the interface table and the state, [dump]
    returns: no index is out of range, no method is called on a nil slot,
    the process is not ended. It leaves [os.Stderr] alone and does one of
    three things: nothing, one line on [os.Stdout], one row in the tab
    writer. *)
Theorem dump_returns env i m s :
  exists s',
    dump env i m s = Normal tt s'
    ∧ os_Stderr s' = os_Stderr s
    ∧ (s' = s
       ∨ (exists format args, s' = printed (Printf format args) s)
       ∨ (exists destination gateway name,
             s' = written (row destination gateway name (getFlags (Flags m))) s)).
Proof.
  destruct (dump_cases env i m)
    as [[_ H]|[[_ (format & args & H)]
       |[_ (name & d & a1 & tail & dst & gw & _ & _ & _ & _ & H)]]];
    rewrite H; eexists; (split; [reflexivity|]); (split; [reflexivity|]).
  - by left.
  - right; left. by eexists _, _.
  - right; right. by eexists _, _, _.
Qed.

(** The flag rule is the only silent path: [dump] leaves the state as it
    found it exactly when the gateway, host and interface-reference flags
    are all set. Every other message gets a line or a row. *)
Theorem dump_silent_iff_dropped env i m s :
  dump env i m s = Normal tt s <->
  Z.land (Flags m) syscall.RTF_GATEWAY = syscall.RTF_GATEWAY
  ∧ Z.land (Flags m) syscall.RTF_HOST = syscall.RTF_HOST
  ∧ Z.land (Flags m) syscall.RTF_IFREF = syscall.RTF_IFREF.
Proof.
  rewrite <- dropped_true.
  destruct (dump_cases env i m)
    as [[Hd H]|[[Hd (format & args & H)]
       |[Hd (name & d & a1 & tail & dst & gw & _ & _ & _ & _ & H)]]];
    rewrite H, Hd; split; try done; intros [= Heq]; exfalso.
  - by apply printed_changes in Heq.
  - by apply written_changes in Heq.
Qed.

Lemma dump_silent_iff_dropped_witness :
  dump (env_of []) 0 msg_ifref initial = Normal tt initial.
Proof.
  apply (proj2 (dump_silent_iff_dropped (env_of []) 0 msg_ifref initial)).
  repeat split; reflexivity.
Defined.

(** ** [dump]: the IPv4 gateway and the prefix length *)

(** For a message the flag rule keeps, whose interface resolves, with an
    IPv4 destination and an IPv4 gateway: with two populated slots the
    row has the bare dotted quad of the destination and the dotted quad of
    the gateway; with three populated slots, the third an IPv4 netmask,
    the gateway is the same and the destination is the one computed from
    the mask. *)
Theorem dump_inet_gateway env i m s d gw tail name :
  dropped m = false ->
  InterfaceByIndex env (Index m) = inl name ->
  Addrs m = Some (Inet4Addr d) :: Some (Inet4Addr gw) :: tail ->
  (forall rest, tail = None :: rest ->
     dump env i m s =
       Normal tt (written (row (dotted d) (dotted gw) name (getFlags (Flags m))) s))
  ∧ (forall mask rest, tail = Some (Inet4Addr mask) :: None :: rest ->
     dump env i m s =
       Normal tt (written (row (destination_with_mask d mask) (dotted gw) name
                             (getFlags (Flags m))) s)).
Proof.
  intros Hdrop Hintf Haddrs. unfold dropped in Hdrop. split.
  - intros rest ->. dump_unfold. rewrite Hdrop, Hintf, Haddrs. reflexivity.
  - intros mask rest ->. unfold destination_with_mask.
    dump_unfold. rewrite Hdrop, Hintf, Haddrs. simpl.
    rewrite Size_IPv4Mask.
    destruct (canonical 32 _); simpl; [destruct (leading_ones 32 _ =? 0)|]; reflexivity.
Qed.

Lemma dump_inet_gateway_witness :
  dump (env_of []) 0 msg_two_slots_inet initial =
    Normal tt (written (row "10.0.0.0" "192.168.1.1" "en0" ["RTF_GATEWAY"; "RTF_UP"])
                 initial)
  ∧ dump (env_of []) 0 msg_slash24 initial =
      Normal tt (written (row "192.168.1.0/24" "10.0.0.1" "en0" ["RTF_GATEWAY"; "RTF_UP"])
                   initial).
Proof.
  split.
  - apply (proj1 (dump_inet_gateway (env_of []) 0 msg_two_slots_inet initial
                    (ip4 10 0 0 0) (ip4 192 168 1 1) (replicate 6 None) "en0"
                    eq_refl eq_refl eq_refl)
             (replicate 5 None) eq_refl).
  - apply (proj2 (dump_inet_gateway (env_of []) 0 msg_slash24 initial
                    (ip4 192 168 1 0) (ip4 10 0 0 1)
                    (Some (Inet4Addr (ip4 255 255 255 0)) :: replicate 5 None) "en0"
                    eq_refl eq_refl eq_refl)
             (ip4 255 255 255 0) (replicate 4 None) eq_refl).
Defined.

Lemma leading_le_length bs : (leading bs <= length bs)%nat.
Proof. induction bs as [|[] bs IH]; simpl; lia. Qed.

Lemma leading_ones_range w v : 0 <= leading_ones w v <= Z.of_nat w.
Proof.
  unfold leading_ones. pose proof (leading_le_length (bits_msb w v)) as H.
  rewrite bits_msb_length in H. lia.
Qed.

(** The prefix length a row shows is between 1 and 32: for a three-slot
    message with an IPv4 netmask the destination is "default" or the
    dotted quad, "/" and a number in that range. *)
Theorem dump_prefix_length_range env i m s d gw mask rest name :
  dropped m = false ->
  InterfaceByIndex env (Index m) = inl name ->
  Addrs m = Some (Inet4Addr d) :: Some gw :: Some (Inet4Addr mask) :: None :: rest ->
  known_gateway gw = true ->
  exists destination gateway,
    dump env i m s =
      Normal tt (written (row destination gateway name (getFlags (Flags m))) s)
    ∧ (destination = "default"
       ∨ exists n, 1 <= n <= 32 ∧ destination = dotted d +:+ "/" +:+ fmt.d n).
Proof.
  intros Hdrop Hintf Haddrs Hgw. unfold dropped in Hdrop.
  pose proof (leading_ones_range 32
                (be32 (ip0 mask) (ip1 mask) (ip2 mask) (ip3 mask))) as Hrange.
  dump_unfold. rewrite Hdrop, Hintf, Haddrs. simpl.
  rewrite Size_IPv4Mask.
  destruct (canonical 32 _); simpl;
    [destruct (Z.eqb_spec (leading_ones 32
                 (be32 (ip0 mask) (ip1 mask) (ip2 mask) (ip3 mask))) 0)|];
    destruct gw; try discriminate Hgw; simpl;
    eexists _, _; (split; [reflexivity|]);
    first [by left | right; eexists; split; [|reflexivity]; lia].
Qed.

Lemma dump_prefix_length_range_witness :
  exists destination gateway,
    dump (env_of []) 0 msg_slash24 initial =
      Normal tt (written (row destination gateway "en0" (getFlags (Flags msg_slash24)))
                   initial)
    ∧ (destination = "default"
       ∨ exists n, 1 <= n <= 32
                   ∧ destination = dotted (ip4 192 168 1 0) +:+ "/" +:+ fmt.d n).
Proof.
  apply (dump_prefix_length_range (env_of []) 0 msg_slash24 initial
           (ip4 192 168 1 0) (Inet4Addr (ip4 10 0 0 1)) (ip4 255 255 255 0)
           (replicate 4 None) "en0"); reflexivity.
Defined.

(** ** The count of populated slots, as the loop computes it *)

Lemma populated_absent addrs :
  None ∈ addrs -> addrs !! populated addrs = Some None.
Proof.
  induction addrs as [|[a|] addrs IH]; intros Hin; simpl.
  - by apply elem_of_nil in Hin.
  - apply elem_of_cons in Hin as [Hin|Hin]; [done|by apply IH].
  - done.
Qed.

Lemma populated_before addrs k :
  (k < populated addrs)%nat -> exists a, addrs !! k = Some (Some a).
Proof.
  revert k. induction addrs as [|[a|] addrs IH]; intros k Hk; simpl in *; try lia.
  destruct k as [|k]; [by exists a|]. apply IH. lia.
Qed.

(** The value [len] of [dump]: when some slot is absent it is the index
    of the first absent slot, all slots before it being populated; when no
    slot is absent it is 0, whatever the number of slots. *)
Theorem len_first_absent (addrs : list (option Addr)) :
  (None ∈ addrs ->
     len_loop 0 addrs 0 = Z.of_nat (populated addrs)
     ∧ addrs !! populated addrs = Some None
     ∧ forall k, (k < populated addrs)%nat -> exists a, addrs !! k = Some (Some a))
  ∧ (None ∉ addrs -> len_loop 0 addrs 0 = 0).
Proof.
  split.
  - intros Hin. split; [rewrite len_loop_populated by done; lia|].
    split; [by apply populated_absent|apply populated_before].
  - apply len_loop_full.
Qed.

Lemma len_first_absent_witness :
  len_loop 0 (Addrs msg_sparse) 0 = Z.of_nat (populated (Addrs msg_sparse))
  ∧ Addrs msg_sparse !! populated (Addrs msg_sparse) = Some None
  ∧ forall k, (k < populated (Addrs msg_sparse))%nat ->
              exists a, Addrs msg_sparse !! k = Some (Some a).
Proof.
  apply (proj1 (len_first_absent (Addrs msg_sparse))).
  simpl. do 3 right. left.
Defined.

(** ** [main]: the table is flushed once, at the end *)

Lemma alone_lines env msg :
  Forall is_line (os_Stdout (alone env msg))
  ∧ (length (os_Stdout (alone env msg)) <= 1)%nat.
Proof.
  destruct msg as [m|kind]; unfold alone; [|split; [by repeat constructor|simpl; lia]].
  destruct (dump_cases env 0 m)
    as [[_ H]|[[_ (format & args & H)]
       |[_ (name & d & a1 & tail & dst & gw & _ & _ & _ & _ & H)]]];
    rewrite H; simpl; (split; [by repeat constructor|lia]).
Qed.

Lemma lines_of_lines env msgs :
  Forall is_line (lines_of env msgs)
  ∧ (length (lines_of env msgs) <= length msgs)%nat.
Proof.
  induction msgs as [|msg msgs [IHl IHn]]; [split; [constructor|done]|].
  destruct (alone_lines env msg) as [Hl Hn].
  unfold lines_of in *. cbn [flat_map]. split.
  - by apply Forall_app.
  - rewrite length_app. simpl. lia.
Qed.

(** When the fetch and the parse succeed, [os.Stdout] gets the banner,
    then at most one line per message, each from [fmt.Println] or
    [fmt.Printf], then the table: the tab writer is flushed once, after
    the last message, and its text begins with the header. The writer is
    left empty and the process ends with status 0. *)
Theorem run_flushes_once env pkt msgs :
  FetchRIB env = inl pkt ->
  ParseRIB env pkt = inl msgs ->
  exists lines rows,
    run env =
      Normal tt (mkState (Println [AStr banner] :: lines
                            ++ [Tabbed 10 2 2 " " 0 (header +:+ rows)]) [] "")
    ∧ Forall is_line lines
    ∧ (length lines <= length msgs)%nat.
Proof.
  intros Hfetch Hparse. exists (lines_of env msgs), (rows_of env msgs).
  split; [exact (run_ok env pkt msgs Hfetch Hparse)|apply lines_of_lines].
Qed.

Lemma run_flushes_once_witness :
  exists lines rows,
    run env_mixed =
      Normal tt (mkState (Println [AStr banner] :: lines
                            ++ [Tabbed 10 2 2 " " 0 (header +:+ rows)]) [] "")
    ∧ Forall is_line lines
    ∧ (length lines <= 3)%nat.
Proof.
  apply (run_flushes_once env_mixed []
           [Route msg_one_slot; Other "InterfaceMessage"; Route msg_default]);
    reflexivity.
Defined.

(** With no message in the parsed table the run still prints the banner
    and the table, which is the header row alone. *)
Theorem run_no_messages env pkt :
  FetchRIB env = inl pkt ->
  ParseRIB env pkt = inl [] ->
  run env =
    Normal tt (mkState [Println [AStr banner]; Tabbed 10 2 2 " " 0 header] [] "").
Proof.
  intros Hfetch Hparse. rewrite (run_ok env pkt [] Hfetch Hparse).
  unfold lines_of, rows_of. simpl. by rewrite append_nil_r.
Qed.

Lemma run_no_messages_witness :
  run (env_of []) =
    Normal tt (mkState [Println [AStr banner]; Tabbed 10 2 2 " " 0 header] [] "").
Proof. apply (run_no_messages (env_of []) []); reflexivity. Defined.

(** ** [dumpAll] *)

(** A loop whose body prints one line for a populated slot and nothing
    for an absent one prints as many lines as there are populated slots. *)
Lemma range_from_present (body : Z -> option Addr -> M unit) :
  (forall j s, body j None s = Normal tt s) ->
  (forall j a s, exists format args,
      body j (Some a) s = Normal tt (printed (Printf format args) s)) ->
  forall addrs j s, exists lines,
    range_from j addrs body s =
      Normal tt (mkState (os_Stdout s ++ lines) (os_Stderr s) (writer s))
    ∧ length lines = present addrs
    ∧ Forall is_line lines.
Proof.
  intros Hnone Hsome.
  induction addrs as [|[a|] addrs IH]; intros j s.
  - exists []. destruct s as [out err w]. simpl. rewrite app_nil_r.
    by repeat split.
  - cbn [range_from]. unfold bind.
    destruct (Hsome j a s) as (format & args & ->).
    destruct (IH (j + 1) (printed (Printf format args) s)) as (lines & -> & Hlen & Hlines).
    exists (Printf format args :: lines). unfold printed. simpl.
    rewrite <- app_assoc. split; [done|]. split.
    + unfold present in *. rewrite filter_cons_True by done. simpl. by rewrite Hlen.
    + by constructor.
  - cbn [range_from]. unfold bind. rewrite Hnone.
    destruct (IH (j + 1) s) as (lines & -> & Hlen & Hlines).
    exists lines. split; [done|]. split; [|done].
    unfold present in *. rewrite filter_cons_False; [done|].
    intros [x Hx]. discriminate Hx.
Qed.

(** [dumpAll] returns, whatever the message: it prints the heading line
    and then one line for every populated slot — also for those after an
    absent slot, which [dump] does not count — and it touches neither
    [os.Stderr] nor the tab writer. *)
Theorem dumpAll_lines i m s :
  exists heading lines,
    dumpAll i m s =
      Normal tt (mkState (os_Stdout s ++ heading :: lines) (os_Stderr s) (writer s))
    ∧ length lines = present (Addrs m)
    ∧ Forall is_line (heading :: lines).
Proof.
  unfold dumpAll, func, bind at 1, range, fmt_Printf at 1.
  match goal with
  | |- context [range_from 0 (Addrs m) ?body] =>
      destruct (range_from_present body) with (addrs := Addrs m) (j := 0)
        (s := mkState (os_Stdout s
                 ++ [Printf "---route msg %d: Type: %d%v, Flag: %d%v, Index: %d\n"
                       [AInt i; AInt (Type_ m); AStr (fmt.v_strings (getTypes (Type_ m)));
                        AInt (Flags m); AStr (fmt.v_strings (getFlags (Flags m)));
                        AInt (Index m)]])
                 (os_Stderr s) (writer s))
        as (lines & Hrun & Hlen & Hlines)
  end.
  - intros j s0. reflexivity.
  - intros j a s0. destruct a; simpl;
      repeat match goal with
        | |- context [(?af =? ?k)] => is_var af; destruct (af =? k); simpl
        end;
      eexists _, _; reflexivity.
  - eexists _, lines. rewrite Hrun. simpl. rewrite <- app_assoc. simpl.
    split; [reflexivity|]. split; [done|]. by constructor.
Qed.

(** ** The texts of addresses can be read back *)

Lemma free_of_app c (a b : string) :
  free_of c (a +:+ b) = free_of c a && free_of c b.
Proof.
  induction a as [|ch a IH]; [done|].
  change (String ch a +:+ b) with (String ch (a +:+ b)). simpl.
  by rewrite IH, andb_assoc.
Qed.

Lemma free_of_sep c (r : string) : free_of c (String c r) = false.
Proof. simpl. by rewrite Ascii.eqb_refl. Qed.

(** Two texts cut at their first separator have the same parts. *)
Lemma split_unique c (a a' r r' : string) :
  free_of c a = true -> free_of c a' = true ->
  a +:+ String c r = a' +:+ String c r' -> a = a' ∧ r = r'.
Proof.
  revert a'. induction a as [|ch a IH]; intros [|ch' a'] Ha Ha' Heq.
  - injection Heq as ->. done.
  - change (String ch' a' +:+ String c r') with (String ch' (a' +:+ String c r')) in Heq.
    change ("" +:+ String c r) with (String c r) in Heq.
    injection Heq as <- _. by rewrite free_of_sep in Ha'.
  - change (String ch a +:+ String c r) with (String ch (a +:+ String c r)) in Heq.
    change ("" +:+ String c r') with (String c r') in Heq.
    injection Heq as -> _. by rewrite free_of_sep in Ha.
  - change (String ch a +:+ String c r) with (String ch (a +:+ String c r)) in Heq.
    change (String ch' a' +:+ String c r') with (String ch' (a' +:+ String c r')) in Heq.
    injection Heq as -> Heq. simpl in Ha, Ha'.
    apply andb_true_iff in Ha as [_ Ha]. apply andb_true_iff in Ha' as [_ Ha'].
    destruct (IH a' Ha Ha' Heq) as [-> ->]. done.
Qed.

Lemma read_d_fmt_d b : read_d (fmt.d (byteZ b)) = b.
Proof. destruct b; reflexivity. Qed.

Lemma fmt_d_free_of_dot b : free_of DOT (fmt.d (byteZ b)) = true.
Proof. destruct b; reflexivity. Qed.

Lemma read_x_fmt_x b : read_x (fmt.x b) = b.
Proof. destruct b; reflexivity. Qed.

Lemma fmt_x_free_of_colon b : free_of COLON (fmt.x b) = true.
Proof. destruct b; reflexivity. Qed.

Lemma fmt_x_not_empty b : fmt.x b ≠ "".
Proof. destruct b; discriminate. Qed.

(** The dotted quad determines the address: two addresses with the same
    text are the same four octets. *)
Theorem dotted_inj (a b : IP4) : dotted a = dotted b -> a = b.
Proof.
  destruct a as [a0 a1 a2 a3], b as [b0 b1 b2 b3]. unfold dotted. simpl.
  change ("." +:+ ?x) with (String DOT x).
  intros Heq.
  apply split_unique in Heq as [H0 Heq]; try apply fmt_d_free_of_dot.
  apply split_unique in Heq as [H1 Heq]; try apply fmt_d_free_of_dot.
  apply split_unique in Heq as [H2 H3]; try apply fmt_d_free_of_dot.
  apply (f_equal read_d) in H0, H1, H2, H3.
  rewrite !read_d_fmt_d in H0, H1, H2, H3. by subst.
Qed.

Lemma dotted_inj_witness : ip4 10 0 0 1 = ip4 (256 + 10) 0 0 1.
Proof. apply (dotted_inj (ip4 10 0 0 1) (ip4 (256 + 10) 0 0 1)). reflexivity. Defined.

Lemma concat_cons2 sep (x y : string) (l : list string) :
  String.concat sep (x :: y :: l) = x +:+ sep +:+ String.concat sep (y :: l).
Proof. reflexivity. Qed.

Lemma concat_not_empty sep (x : string) (l : list string) :
  x ≠ "" -> String.concat sep (x :: l) ≠ "".
Proof.
  intros Hx. destruct l as [|y l]; [done|].
  rewrite concat_cons2. destruct x as [|ch x]; [done|discriminate].
Qed.

(** The colon-separated hexadecimal text determines the hardware
    address: two byte strings with the same text are equal. *)
Theorem hex_gateway_inj (hw hw' : list byte) :
  strings_Join (hex_loop hw) ":" = strings_Join (hex_loop hw') ":" -> hw = hw'.
Proof.
  unfold strings_Join. rewrite !hex_loop_map.
  revert hw'. induction hw as [|b hw IH]; intros [|b' hw'] Heq.
  - done.
  - exfalso. cbn [map] in Heq.
    by apply (concat_not_empty ":" (fmt.x b') (map fmt.x hw') (fmt_x_not_empty b')).
  - exfalso. cbn [map] in Heq.
    by apply (concat_not_empty ":" (fmt.x b) (map fmt.x hw) (fmt_x_not_empty b)).
  - destruct hw as [|b2 hw], hw' as [|b2' hw'].
    + simpl in Heq. apply (f_equal read_x) in Heq.
      rewrite !read_x_fmt_x in Heq. by subst.
    + exfalso. cbn [map] in Heq. rewrite concat_cons2 in Heq.
      change (":" +:+ ?x) with (String COLON x) in Heq.
      apply (f_equal (free_of COLON)) in Heq.
      change (String.concat ":" [fmt.x b]) with (fmt.x b) in Heq.
      rewrite free_of_app, free_of_sep, andb_false_r, fmt_x_free_of_colon in Heq.
      discriminate Heq.
    + exfalso. cbn [map] in Heq. rewrite concat_cons2 in Heq.
      change (":" +:+ ?x) with (String COLON x) in Heq.
      apply (f_equal (free_of COLON)) in Heq.
      change (String.concat ":" [fmt.x b']) with (fmt.x b') in Heq.
      rewrite free_of_app, free_of_sep, andb_false_r, fmt_x_free_of_colon in Heq.
      discriminate Heq.
    + cbn [map] in Heq. rewrite !concat_cons2 in Heq.
      change (":" +:+ ?x) with (String COLON x) in Heq.
      apply split_unique in Heq as [Hb Heq]; try apply fmt_x_free_of_colon.
      apply (f_equal read_x) in Hb. rewrite !read_x_fmt_x in Hb. subst b'.
      f_equal. apply IH. exact Heq.
Qed.

Lemma hex_gateway_inj_witness : [Zbyte 0x02; Zbyte 0xab] = [Zbyte 0x102; Zbyte 0xab].
Proof.
  apply (hex_gateway_inj [Zbyte 0x02; Zbyte 0xab] [Zbyte 0x102; Zbyte 0xab]).
  reflexivity.
Defined.
